(** * Palmer Penguins dashboard (server.py): a shallow embedding

    The dashboard is a Streamlit script: it opens a Snowflake connection,
    loads the PENGUINS table into a dataframe, filters it with three sidebar
    multiselects and renders metrics, charts and a grid.  The embedding keeps
    the shape of the script: dataframes are lists of rows, Series are lists
    of cells, the calls into Streamlit and Snowflake thread one explicit
    state, and a Python exception is the left summand of a result. *)

From Stdlib Require Import QArith Ascii String.
From stdpp Require Import gmap strings list sorting pretty.

Local Open Scope string_scope.

(** ** Python values and exceptions *)

(** The two places of the exception hierarchy that [except Exception] tells
    apart: instances of [Exception], and instances of [BaseException] that
    are not (KeyboardInterrupt, SystemExit, GeneratorExit and the script
    control signals of the hosting framework).  The first string is the
    class name, the second is [str(e)]. *)
Inductive exn :=
  | PyException (cls msg : string)
  | PyBaseException (cls msg : string).

Definition str_exn (e : exn) : string :=
  match e with PyException _ m | PyBaseException _ m => m end.

Definition isinstance_Exception (e : exn) : bool :=
  match e with PyException _ _ => true | PyBaseException _ _ => false end.

(** Keyword-argument values handed to [snowflake.connector.connect]. *)
Inductive pyval :=
  | VStr (s : string)
  | VInt (z : Z)
  | VNone.

(** ** The Observation Table *)

(** One row of [<database>.PUBLIC.PENGUINS].  SPECIES and ISLAND are always
    present; SEX and the four measurements may be NULL, which the dataframe
    holds as a missing cell ([None]). *)
Record Row := {
  SPECIES : string;
  ISLAND : string;
  BILL_LENGTH_MM : option Q;
  BILL_DEPTH_MM : option Q;
  FLIPPER_LENGTH_MM : option Q;
  BODY_MASS_G : option Q;
  SEX : option string
}.

Abbreviation DataFrame := (list Row).

(** ** The dataframe operations the script calls *)
Module pd.

(** [Series.unique()]: distinct values in order of first appearance. *)
Fixpoint unique_from {A} `{EqDecision A} (seen l : list A) : list A :=
  match l with
  | [] => []
  | x :: l =>
      if decide (x ∈ seen) then unique_from seen l
      else x :: unique_from (x :: seen) l
  end.
Definition unique {A} `{EqDecision A} (s : list A) : list A :=
  unique_from [] s.

(** [Series.dropna()]: the present cells, in order. *)
Definition dropna {A} (s : list (option A)) : list A := omap id s.

(** [Series.isin(values)] on a column without missing cells. *)
Definition isin (s : list string) (values : list string) : list bool :=
  (λ x, bool_decide (x ∈ values)) <$> s.

(** [Series.isin(values)] on a column with missing cells: a missing cell
    is a member of no list of strings. *)
Definition isin_na (s : list (option string)) (values : list string)
  : list bool :=
  (λ c, match c with
        | Some x => bool_decide (x ∈ values)
        | None => false
        end) <$> s.

(** [a & b] on two boolean Series of one index. *)
Definition and_ (a b : list bool) : list bool := zip_with andb a b.

(** [df[mask]]: the rows at which the boolean mask holds, in order. *)
Fixpoint getitem_mask {A} (df : list A) (mask : list bool) : list A :=
  match df, mask with
  | r :: df, b :: mask =>
      if b then r :: getitem_mask df mask else getitem_mask df mask
  | _, _ => []
  end.

(** [Series.nunique()] on a column without missing cells. *)
Definition nunique {A} `{EqDecision A} (s : list A) : nat :=
  length (unique s).

(** [Series.value_counts()]: how often each value occurs.  The order of
    the resulting index is left out. *)
Definition value_counts (s : list string) : gmap string nat :=
  foldr (λ x m, <[x := S (default 0 (m !! x))]> m) ∅ s.

(** [Series.mean()]: missing cells are skipped; the mean of no value at
    all is NaN, here [None].  The quotient is the exact rational one. *)
Definition mean (s : list (option Q)) : option Q :=
  match dropna s with
  | [] => None
  | x :: xs =>
      Some (Qred (foldr Qplus 0%Q (x :: xs) / inject_Z (Z.of_nat (length (x :: xs))))%Q)
  end.

End pd.

(** [sorted(...)] on strings: ascending in the order of code points, which
    on the UTF-8 bytes of a [string] is the bytewise lexicographic order. *)
Definition sorted (l : list string) : list string := merge_sort String.le l.

(** Lines 166-170: the boolean mask of the three membership tests and the
    rows it selects. *)
Definition filter_mask (df : DataFrame) (species islands sex_filter : list string)
  : list bool :=
  pd.and_ (pd.and_ (pd.isin (SPECIES <$> df) species)
                   (pd.isin (ISLAND <$> df) islands))
          (pd.isin_na (SEX <$> df) sex_filter).

Definition apply_filters (df : DataFrame) (species islands sex_filter : list string)
  : DataFrame :=
  pd.getitem_mask df (filter_mask df species islands sex_filter).

(** The option lists of the three multiselects (lines 146, 153, 158-161). *)
Definition species_options (df : DataFrame) : list string :=
  sorted (pd.unique (SPECIES <$> df)).
Definition island_options (df : DataFrame) : list string :=
  sorted (pd.unique (ISLAND <$> df)).
Definition sex_options (df : DataFrame) : list string :=
  let sexes := pd.unique (pd.dropna (SEX <$> df)) in
  sorted sexes.

(** ** Builtins *)

(** What the script's one call to [int] depends on in the interpreter: the
    limit on the number of digits of a decimal string (4300 unless
    configured otherwise, 0 for no limit), and the reading of a string that
    has a character outside ASCII, which goes through the interpreter's
    Unicode tables: [inr] the value, [inl] the message of the ValueError. *)
Record Interpreter := {
  int_max_str_digits : N;
  int_non_ascii : string → string + Z
}.

(** White space as [int] skips it around an ASCII string: blank, tab, line
    feed, vertical tab, form feed, carriage return. *)
Definition py_isspace (c : ascii) : bool :=
  let n := nat_of_ascii c in
  bool_decide (n = 32 ∨ 9 ≤ n ≤ 13)%nat.

Fixpoint lstrip (s : string) : string :=
  match s with
  | String c s' => if py_isspace c then lstrip s' else s
  | "" => ""
  end.
Definition strip (s : string) : string :=
  String.rev (lstrip (String.rev (lstrip s))).

Definition py_digit (c : ascii) : option Z :=
  let n := nat_of_ascii c in
  if bool_decide (48 ≤ n ≤ 57)%nat then Some (Z.of_nat n - 48)%Z else None.

(** Decimal digits, single underscores allowed between two digits. *)
Fixpoint int_digits (acc : Z) (after_digit : bool) (s : string) : option Z :=
  match s with
  | "" => if after_digit then Some acc else None
  | String c s' =>
      if bool_decide (c = "_"%char) then
        if after_digit then
          match s' with "" => None | _ => int_digits acc false s' end
        else None
      else
        match py_digit c with
        | Some d => int_digits (10 * acc + d)%Z true s'
        | None => None
        end
  end.

(** The number of digit characters, underscores left out. *)
Fixpoint count_digits (s : string) : N :=
  match s with
  | "" => 0
  | String c s' =>
      ((match py_digit c with Some _ => 1 | None => 0 end) + count_digits s')%N
  end.

Fixpoint is_ascii (s : string) : bool :=
  match s with
  | "" => true
  | String c s' => bool_decide (nat_of_ascii c < 128)%nat && is_ascii s'
  end.

(** [repr(s)] of an ASCII string: single quotes, or double quotes when the
    string has a single quote and no double one; the quote in use and the
    backslash are escaped, as are the control characters. *)
Definition dquote : ascii := ascii_of_nat 34.
Definition backslash : ascii := ascii_of_nat 92.

Fixpoint contains (c : ascii) (s : string) : bool :=
  match s with
  | "" => false
  | String c' s' => bool_decide (c' = c) || contains c s'
  end.

Definition hex_digit (n : nat) : ascii :=
  if bool_decide (n < 10)%nat then ascii_of_nat (48 + n) else ascii_of_nat (87 + n).

Definition repr_char (quote c : ascii) : string :=
  let n := nat_of_ascii c in
  if bool_decide (c = quote) || bool_decide (c = backslash) then
    String backslash (String c "")
  else if bool_decide (n = 9)%nat then String backslash "t"
  else if bool_decide (n = 10)%nat then String backslash "n"
  else if bool_decide (n = 13)%nat then String backslash "r"
  else if bool_decide (n < 32 ∨ n = 127)%nat then
    String backslash
      (String "x" (String (hex_digit (n / 16)) (String (hex_digit (n mod 16)) "")))
  else String c "".

Fixpoint repr_body (quote : ascii) (s : string) : string :=
  match s with
  | "" => ""
  | String c s' => repr_char quote c +:+ repr_body quote s'
  end.

Definition py_repr (s : string) : string :=
  let quote :=
    if contains "'" s && negb (contains dquote s) then dquote else "'"%char in
  String quote (repr_body quote s +:+ String quote "").

(** An optional sign and what follows it. *)
Definition split_sign (s : string) : bool * string :=
  match s with
  | String "-" ds => (true, ds)
  | String "+" ds => (false, ds)
  | ds => (false, ds)
  end.

(** [int(s)] on an ASCII string, in base ten, under the digit limit
    [max_digits]: white space is skipped at both ends, then an optional
    sign, then the digits.  More than 640 digits, and more than a non-zero
    limit, is an error of its own. *)
Definition int_ascii (max_digits : N) (s : string) : string + Z :=
  let '(negative, ds) := split_sign (strip s) in
  match int_digits 0 false ds with
  | Some n =>
      let digits := count_digits ds in
      if bool_decide (640 < digits ∧ 0 < max_digits ∧ max_digits < digits)%N then
        inl ("Exceeds the limit (" +:+ pretty max_digits
             +:+ " digits) for integer string conversion: value has "
             +:+ pretty digits
             +:+ " digits; use sys.set_int_max_str_digits() to increase the limit")
      else inr (if negative then - n else n)%Z
  | None =>
      inl ("invalid literal for int() with base 10: "
           +:+ substring 0 200 (py_repr s))
  end.

(** [int(s)]: [inr] the value, [inl] the message of the ValueError. *)
Definition py_int (py : Interpreter) (s : string) : string + Z :=
  if is_ascii s then int_ascii (int_max_str_digits py) s
  else int_non_ascii py s.

(** [f"{n:,}"]: decimal digits in groups of three. *)
Fixpoint group3 (k : nat) (rev_digits : string) : string :=
  match rev_digits with
  | "" => ""
  | String c s =>
      if decide (k = 3) then String "," (String c (group3 1 s))
      else String c (group3 (S k) s)
  end.
Definition format_comma (n : N) : string :=
  String.rev (group3 0 (String.rev (pretty n))).

(** Rounding of a non-negative rational [a/d] to the nearest integer, ties
    to the even one. *)
Definition round_half_even (a : Z) (d : positive) : Z :=
  let fl := (a / Zpos d)%Z in
  match (2 * (a mod Zpos d) ?= Zpos d)%Z with
  | Lt => fl
  | Gt => (fl + 1)%Z
  | Eq => if Z.even fl then fl else (fl + 1)%Z
  end.

(** [f"{x:,.0f}"] for the float [x]: [nan] for NaN, otherwise sign, rounded
    magnitude, groups of three. *)
Definition format_comma_0f (x : option Q) : string :=
  match x with
  | None => "nan"
  | Some q =>
      (if bool_decide (Qnum q < 0)%Z then "-" else "") +:+
      format_comma (Z.to_N (round_half_even (Z.abs (Qnum q)) (Qden q)))
  end.

(** ** State, effects and exceptions *)

(** What a run of the script puts on the page, in order. *)
Inductive metric_value :=
  | MetricStr (s : string)
  | MetricInt (n : nat).

Inductive element :=
  | HeaderHtml (label color bg_color : string)
  | Markdown (body : string)
  | SidebarMarkdown (body : string)
  | SidebarMultiselect (label : string) (options default : list string)
  | Spinner (text : string)
  | Metric (label : string) (value : metric_value)
  | BarChart (data : gmap string nat)
  | ScatterChart (data : list (Q * Q * string))
  | Dataframe (data : DataFrame)
  | Caption (body : string)
  | Error (body : string)
  | Warning (body : string)
  | Info (body : string).

(** A connection handle, and the cursor left by [execute]: the rows of the
    result set, and the exception a fetch from it raises, if any. *)
Definition Connection := nat.
Record Cursor := {
  result_set : list Row;
  fetch_failure : option exn
}.

(** The warehouse client library, as the script sees it. *)
Record Snowflake := {
  sf_connect : gmap string pyval → exn + Connection;
  sf_cursor : Connection → option exn;
  sf_execute : Connection → string → exn + Cursor
}.

(** The secret store behind [st.secrets]: the tables of the secrets file,
    [None] when no secrets file is found, and the texts of the two errors
    of the framework, which name the paths it searched and the key it
    missed. *)
Record SecretStore := {
  secrets_toml : option (gmap string (gmap string pyval));
  secrets_not_found_text : string;
  secrets_missing_key_text : string → string
}.

(** The process: its environment, its secret store and the client. *)
Record Process := {
  environ : gmap string string;
  secrets : SecretStore;
  snowflake : Snowflake
}.

(** The mutable state: the two process-wide caches of the framework, the
    monotonic clock, the calls made to the client, and the page. *)
Record State := {
  resource_cache : option Connection;
  data_cache : option (Q * DataFrame);
  clock : Q;
  connect_calls : list (gmap string pyval);
  statements : list string;
  page : list element
}.

Definition M (A : Type) : Type := State → (exn + A) * State.

Global Instance M_ret : MRet M := λ A x s, (inr x, s).
Global Instance M_bind : MBind M := λ A B f m s,
  match m s with
  | (inr x, s') => f x s'
  | (inl e, s') => (inl e, s')
  end.

Definition raise {A} (e : exn) : M A := λ s, (inl e, s).

Definition lift {A} (r : exn + A) : M A := λ s, (r, s).

(** [try: body / except Exception as e: handler e]. *)
Definition try_except_Exception {A} (body : M A) (handler : exn → M A) : M A :=
  λ s,
    match body s with
    | (inr x, s') => (inr x, s')
    | (inl e, s') =>
        if isinstance_Exception e then handler e s' else (inl e, s')
    end.

Definition with_page (f : list element → list element) (s : State) : State :=
  {| resource_cache := resource_cache s; data_cache := data_cache s;
     clock := clock s; connect_calls := connect_calls s;
     statements := statements s; page := f (page s) |}.
Definition with_statements (f : list string → list string) (s : State) : State :=
  {| resource_cache := resource_cache s; data_cache := data_cache s;
     clock := clock s; connect_calls := connect_calls s;
     statements := f (statements s); page := page s |}.
Definition with_connect_calls
    (f : list (gmap string pyval) → list (gmap string pyval)) (s : State) : State :=
  {| resource_cache := resource_cache s; data_cache := data_cache s;
     clock := clock s; connect_calls := f (connect_calls s);
     statements := statements s; page := page s |}.
Definition with_resource_cache (c : option Connection) (s : State) : State :=
  {| resource_cache := c; data_cache := data_cache s;
     clock := clock s; connect_calls := connect_calls s;
     statements := statements s; page := page s |}.
Definition with_data_cache (c : option (Q * DataFrame)) (s : State) : State :=
  {| resource_cache := resource_cache s; data_cache := c;
     clock := clock s; connect_calls := connect_calls s;
     statements := statements s; page := page s |}.
Definition with_clock (t : Q) (s : State) : State :=
  {| resource_cache := resource_cache s; data_cache := data_cache s;
     clock := t; connect_calls := connect_calls s;
     statements := statements s; page := page s |}.

(** The state after the elements [es] are appended to the page. *)
Definition shows (es : list element) (s : State) : State :=
  with_page (λ p, (p ++ es)%list) s.
Global Arguments shows : simpl never.

(** Any [st.*] call that draws: the element is appended to the page. *)
Definition show (e : element) : M unit :=
  λ s, (inr (), shows [e] s).

(** ** Streamlit *)
Module st.

Definition markdown (body : string) : M unit := show (Markdown body).
Definition caption (body : string) : M unit := show (Caption body).
Definition error (body : string) : M unit := show (Error body).
Definition warning (body : string) : M unit := show (Warning body).
Definition info (body : string) : M unit := show (Info body).
Definition metric (label : string) (value : metric_value) : M unit :=
  show (Metric label value).
Definition bar_chart (data : gmap string nat) : M unit := show (BarChart data).
Definition scatter_chart (data : list (Q * Q * string)) : M unit :=
  show (ScatterChart data).
Definition dataframe (data : DataFrame) : M unit := show (Dataframe data).
Definition sidebar_markdown (body : string) : M unit :=
  show (SidebarMarkdown body).

(** [with st.spinner(text): body]. *)
Definition spinner {A} (text : string) (body : M A) : M A :=
  show (Spinner text);; body.

(** [st.sidebar.multiselect(label, options=, default=)]: the widget is
    drawn and its current selection returned, which is [default] until
    the user has touched the widget.  [widgets] holds the selections the
    user made in this session, by label. *)
Definition sidebar_multiselect (widgets : gmap string (list string))
    (label : string) (options default : list string) : M (list string) :=
  show (SidebarMultiselect label options default);;
  mret (from_option id default (widgets !! label)).

(** [st.secrets[section]]: without a secrets file the framework raises its
    StreamlitSecretNotFoundError, with a file that lacks the section a
    KeyError. *)
Definition secrets_getitem (p : Process) (section : string)
  : M (gmap string pyval) :=
  match secrets_toml (secrets p) with
  | None =>
      raise (PyException "StreamlitSecretNotFoundError"
               (secrets_not_found_text (secrets p)))
  | Some toml =>
      match toml !! section with
      | Some bundle => mret bundle
      | None =>
          raise (PyException "KeyError"
                   (secrets_missing_key_text (secrets p) section))
      end
  end.

(** Modelled from the spec: the decorator [st.cache_resource] of the
    framework (section 4.1): the first result is kept for the rest of the
    life of the process, with no invalidation; a call that raises stores
    nothing. *)
Definition cache_resource (f : M Connection) : M Connection :=
  λ s,
    match resource_cache s with
    | Some c => (inr c, s)
    | None =>
        match f s with
        | (inr c, s') => (inr c, with_resource_cache (Some c) s')
        | (inl e, s') => (inl e, s')
        end
    end.

(** An entry made at [created] is valid at [now] while its age is below
    the time-to-live. *)
Definition fresh (ttl created now : Q) : bool :=
  if Qlt_le_dec (now - created) ttl then true else false.

(** Modelled from the spec: the decorator [st.cache_data(ttl=...)] of the
    framework (sections 3, 4.2 and 9): an entry holds the value and the
    time it was made; a call within the time-to-live returns the value
    without running the function; afterwards the function runs again and
    the entry is replaced; a call that raises stores nothing. *)
Definition cache_data (ttl : Q) (f : M DataFrame) : M DataFrame :=
  λ s,
    let run :=
      match f s with
      | (inr df, s') => (inr df, with_data_cache (Some (clock s', df)) s')
      | (inl e, s') => (inl e, s')
      end in
    match data_cache s with
    | Some (created, df) => if fresh ttl created (clock s) then (inr df, s) else run
    | None => run
    end.

End st.

(** ** The operating system and the warehouse client *)
Module os.

(** [os.getenv(key)]: the value, or [None] when the variable is unset. *)
Definition getenv (p : Process) (key : string) : pyval :=
  match environ p !! key with
  | Some v => VStr v
  | None => VNone
  end.

(** [os.getenv(key, dflt)]. *)
Definition getenv_default (p : Process) (key dflt : string) : string :=
  default dflt (environ p !! key).

End os.

Module connector.

(** A call of [callee] that unpacks a dict with [**] and then names
    keywords [k1=v1, ...]: a keyword given twice is a TypeError. *)
Fixpoint call_kwargs (callee : string) (unpacked : gmap string pyval)
    (explicit : list (string * pyval)) : exn + gmap string pyval :=
  match explicit with
  | [] => inr unpacked
  | (k, v) :: rest =>
      match unpacked !! k with
      | Some _ =>
          inl (PyException "TypeError"
                 (callee +:+ "() got multiple values for keyword argument '"
                  +:+ k +:+ "'"))
      | None => call_kwargs callee (<[k := v]> unpacked) rest
      end
  end.

(** [snowflake.connector.connect] with the keyword arguments [kwargs]. *)
Definition connect (p : Process) (kwargs : gmap string pyval) : M Connection :=
  λ s, (sf_connect (snowflake p) kwargs,
        with_connect_calls (λ l, (l ++ [kwargs])%list) s).

(** [conn.cursor()]. *)
Definition cursor (p : Process) (conn : Connection) : M Connection :=
  match sf_cursor (snowflake p) conn with
  | Some e => raise e
  | None => mret conn
  end.

(** [cur.execute(sql)]: the statement goes to the warehouse. *)
Definition execute (p : Process) (cur : Connection) (sql : string) : M Cursor :=
  λ s, (sf_execute (snowflake p) cur sql,
        with_statements (λ l, (l ++ [sql])%list) s).

(** [cur.fetch_pandas_all()]: every row of the result set. *)
Definition fetch_pandas_all (cur : Cursor) : M DataFrame :=
  match fetch_failure cur with
  | Some e => raise e
  | None => mret (result_set cur)
  end.

End connector.

(** ** The script *)

(** Lines 7 and 10: the two module-level settings. *)
Record Globals := {
  DEPLOYMENT_ENV : string;
  CONNECTION_TIMEOUT : Z
}.

Definition module_globals (py : Interpreter) (p : Process) : exn + Globals :=
  let raw := os.getenv_default p "SNOWFLAKE_CONNECTION_TIMEOUT" "15" in
  match py_int py raw with
  | inr t =>
      inr {| DEPLOYMENT_ENV := os.getenv_default p "DEPLOYMENT_ENV" "LOCAL";
             CONNECTION_TIMEOUT := t |}
  | inl msg => inl (PyException "ValueError" msg)
  end.

(** Lines 38-67: the body of [get_db_connection]. *)
Definition get_db_connection_body (g : Globals) (p : Process) : M Connection :=
  if decide (DEPLOYMENT_ENV g = "AWS") then
    connector.connect p
      (list_to_map
         [("account", os.getenv p "SNOWFLAKE_ACCOUNT");
          ("authenticator", VStr "WORKLOAD_IDENTITY");
          ("workload_identity_provider", VStr "AWS");
          ("warehouse", VStr (os.getenv_default p "SNOWFLAKE_WAREHOUSE" "COMPUTE_WH"));
          ("role", os.getenv p "SNOWFLAKE_ROLE");
          ("user", os.getenv p "SNOWFLAKE_USER");
          ("login_timeout", VInt (CONNECTION_TIMEOUT g));
          ("network_timeout", VInt (CONNECTION_TIMEOUT g))])
  else if decide (DEPLOYMENT_ENV g = "DOCKER") then
    connector.connect p
      (list_to_map
         [("account", os.getenv p "SNOWFLAKE_ACCOUNT");
          ("user", os.getenv p "SNOWFLAKE_USER");
          ("password", os.getenv p "SNOWFLAKE_PASSWORD");
          ("warehouse", VStr (os.getenv_default p "SNOWFLAKE_WAREHOUSE" "COMPUTE_WH"));
          ("role", os.getenv p "SNOWFLAKE_ROLE");
          ("database", os.getenv p "DEMO_DATABASE");
          ("login_timeout", VInt (CONNECTION_TIMEOUT g));
          ("network_timeout", VInt (CONNECTION_TIMEOUT g))])
  else
    bundle ← st.secrets_getitem p "snowflake";
    kwargs ← lift (connector.call_kwargs "snowflake.connector.connect" bundle
                     [("login_timeout", VInt (CONNECTION_TIMEOUT g));
                      ("network_timeout", VInt (CONNECTION_TIMEOUT g))]);
    connector.connect p kwargs.

Definition get_db_connection (g : Globals) (p : Process) : M Connection :=
  st.cache_resource (get_db_connection_body g p).

(** Line 76: the text of the one statement. *)
Definition penguins_query (p : Process) : string :=
  let table_name := os.getenv_default p "DEMO_DATABASE" "DEMO_DB" +:+ ".PUBLIC.PENGUINS" in
  "SELECT * FROM " +:+ table_name.

(** Lines 73-77: the body of [load_penguins_data]. *)
Definition load_penguins_data_body (g : Globals) (p : Process) : M DataFrame :=
  conn ← get_db_connection g p;
  cur ← connector.cursor p conn;
  res ← connector.execute p cur (penguins_query p);
  connector.fetch_pandas_all res.

Definition load_penguins_data (g : Globals) (p : Process) : M DataFrame :=
  st.cache_data 300 (load_penguins_data_body g p).

(** Lines 85-121.  The markdown call is kept as the three values that the
    HTML template interpolates. *)
Definition badge_config : gmap string (string * string * string) :=
  list_to_map
    [("AWS", ("☁️ AWS App Runner", "#FF9900", "#FFF8E7"));
     ("DOCKER", ("🐳 Docker", "#2496ED", "#E7F5FF"));
     ("LOCAL", ("💻 Local Dev", "#22C55E", "#E7FFF0"))].

Definition render_header (g : Globals) : M unit :=
  let '(label, color, bg_color) :=
    default ("🔧 Unknown", "#666", "#F5F5F5") (badge_config !! DEPLOYMENT_ENV g) in
  show (HeaderHtml label color bg_color).

(** Lines 124-136. *)
Definition render_metrics (df : DataFrame) : M unit :=
  st.metric "Total Penguins" (MetricStr (format_comma (N.of_nat (length df))));;
  st.metric "Species" (MetricInt (pd.nunique (SPECIES <$> df)));;
  st.metric "Islands" (MetricInt (pd.nunique (ISLAND <$> df)));;
  let avg_mass := pd.mean (BODY_MASS_G <$> df) in
  st.metric "Avg Body Mass" (MetricStr (format_comma_0f avg_mass +:+ "g")).

(** Lines 139-175. *)
Definition render_sidebar (widgets : gmap string (list string)) (df : DataFrame)
  : M DataFrame :=
  st.sidebar_markdown "### 🔍 Filters";;
  species ← st.sidebar_multiselect widgets "Species"
              (sorted (pd.unique (SPECIES <$> df)))
              (sorted (pd.unique (SPECIES <$> df)));
  islands ← st.sidebar_multiselect widgets "Island"
              (sorted (pd.unique (ISLAND <$> df)))
              (sorted (pd.unique (ISLAND <$> df)));
  let sexes := pd.unique (pd.dropna (SEX <$> df)) in
  sex_filter ← st.sidebar_multiselect widgets "Sex" (sorted sexes) (sorted sexes);
  let filtered := apply_filters df species islands sex_filter in
  st.sidebar_markdown "---";;
  st.sidebar_markdown
    ("**Showing " +:+ format_comma (N.of_nat (length filtered)) +:+ "** of "
     +:+ format_comma (N.of_nat (length df)) +:+ " penguins");;
  mret filtered.

(** Lines 178-200. *)
Definition scatter_rows (df : DataFrame) : list (Q * Q * string) :=
  omap (λ r, match FLIPPER_LENGTH_MM r, BODY_MASS_G r with
             | Some f, Some m => Some (f, m, SPECIES r)
             | _, _ => None
             end) df.

Definition render_charts (df : DataFrame) : M unit :=
  st.markdown "#### 📊 Species Distribution";;
  st.bar_chart (pd.value_counts (SPECIES <$> df));;
  st.markdown "#### 🏝️ Penguins by Island";;
  st.bar_chart (pd.value_counts (ISLAND <$> df));;
  st.markdown "#### 📏 Body Mass vs Flipper Length";;
  st.scatter_chart (scatter_rows df).

(** Lines 203-225.  The column formats are display directives only. *)
Definition render_data_table (df : DataFrame) : M unit :=
  st.markdown "#### 📋 Data Table";;
  st.dataframe df.

Definition aws_checklist : string :=
  "**AWS Workload Identity Check:**" +:+ String "010" "" +:+
  "- Is the instance role attached to the App Runner service?" +:+ String "010" "" +:+
  "- Is Snowflake WIDF configured for this role?" +:+ String "010" "" +:+
  "- Can the VPC reach Snowflake? (Check egress/PrivateLink settings)".

(** Lines 237-261: the block under [try].  The five functions that [main]
    looks up by name at call time are arguments: these are what a simulated
    failure replaces. *)
Definition main_try (g : Globals)
    (load_penguins_data : M DataFrame)
    (render_sidebar : DataFrame → M DataFrame)
    (render_metrics render_charts render_data_table : DataFrame → M unit)
  : M unit :=
  df ← st.spinner "Loading penguin data..." load_penguins_data;
  filtered_df ← render_sidebar df;
  render_metrics filtered_df;;
  st.markdown "---";;
  render_charts filtered_df;;
  st.markdown "---";;
  render_data_table filtered_df;;
  st.markdown "---";;
  st.caption
    ("🚀 Running on **" +:+ DEPLOYMENT_ENV g +:+ "** | " +:+
     "Data: [Palmer Penguins](https://allisonhorst.github.io/palmerpenguins/)").

(** Lines 263-272: the handler. *)
Definition main_except (g : Globals) (e : exn) : M unit :=
  st.error ("Failed to load data: " +:+ str_exn e);;
  (if decide (DEPLOYMENT_ENV g = "AWS") then st.warning aws_checklist
   else mret ());;
  st.info "Please check your database connection and try again.".

(** Lines 233-272. *)
Definition main_with (g : Globals)
    (load_penguins_data : M DataFrame)
    (render_sidebar : DataFrame → M DataFrame)
    (render_metrics render_charts render_data_table : DataFrame → M unit)
  : M unit :=
  render_header g;;
  try_except_Exception
    (main_try g load_penguins_data render_sidebar
       render_metrics render_charts render_data_table)
    (main_except g).

Definition main (g : Globals) (p : Process) (widgets : gmap string (list string))
  : M unit :=
  main_with g (load_penguins_data g p) (render_sidebar widgets)
    render_metrics render_charts render_data_table.

(** ** Reading the filter as a predicate on rows *)

(** A cell of the SEX column is among the selected values. *)
Definition sex_in (sex_filter : list string) (c : option string) : Prop :=
  match c with
  | Some x => x ∈ sex_filter
  | None => False
  end.

Global Instance sex_in_dec sex_filter c : Decision (sex_in sex_filter c) :=
  match c with
  | Some x => decide (x ∈ sex_filter)
  | None => right (λ H : False, H)
  end.

(** A row passes the three membership tests. *)
Definition row_selected (species islands sex_filter : list string) (r : Row) : Prop :=
  SPECIES r ∈ species ∧ ISLAND r ∈ islands ∧ sex_in sex_filter (SEX r).

Global Instance row_selected_dec species islands sex_filter r :
  Decision (row_selected species islands sex_filter r) :=
  and_dec _ _.

(** The selection a multiselect returns under the widget state [widgets]. *)
Definition selection (widgets : gmap string (list string)) (label : string)
    (options : list string) : list string :=
  from_option id options (widgets !! label).

(** [opts] lists the distinct values of [col], ascending. *)
Definition sorted_distinct_of (opts col : list string) : Prop :=
  Sorted String.le opts ∧ NoDup opts ∧ ∀ x, x ∈ opts ↔ x ∈ col.

(** What [render_sidebar] draws. *)
Definition sidebar_elements (df filtered : DataFrame) : list element :=
  [SidebarMarkdown "### 🔍 Filters";
   SidebarMultiselect "Species" (species_options df) (species_options df);
   SidebarMultiselect "Island" (island_options df) (island_options df);
   SidebarMultiselect "Sex" (sex_options df) (sex_options df);
   SidebarMarkdown "---";
   SidebarMarkdown
     ("**Showing " +:+ format_comma (N.of_nat (length filtered)) +:+ "** of "
      +:+ format_comma (N.of_nat (length df)) +:+ " penguins")].

(** ** Sample data *)

Definition adelie_male : Row :=
  {| SPECIES := "Adelie"; ISLAND := "Torgersen";
     BILL_LENGTH_MM := Some (391 # 10)%Q; BILL_DEPTH_MM := Some (187 # 10)%Q;
     FLIPPER_LENGTH_MM := Some 181%Q; BODY_MASS_G := Some 3750%Q;
     SEX := Some "MALE" |}.

Definition adelie_unsexed : Row :=
  {| SPECIES := "Adelie"; ISLAND := "Torgersen";
     BILL_LENGTH_MM := None; BILL_DEPTH_MM := None;
     FLIPPER_LENGTH_MM := None; BODY_MASS_G := None;
     SEX := None |}.

Definition gentoo_female : Row :=
  {| SPECIES := "Gentoo"; ISLAND := "Biscoe";
     BILL_LENGTH_MM := Some (461 # 10)%Q; BILL_DEPTH_MM := Some (132 # 10)%Q;
     FLIPPER_LENGTH_MM := Some 211%Q; BODY_MASS_G := Some 4500%Q;
     SEX := Some "FEMALE" |}.

Definition sample_table : DataFrame :=
  [adelie_male; adelie_unsexed; gentoo_female].

Definition fresh_state : State :=
  {| resource_cache := None; data_cache := None; clock := 0%Q;
     connect_calls := []; statements := []; page := [] |}.

(** ** Where an exception comes from *)

(** The exception [e] leaves one of the five steps of the block under [try],
    the steps before it having returned: the load, the filter, or one of the
    three renderers.  [s0] is the state on entry to the block, [s1] the
    state when [e] is raised. *)
Inductive step_raises (load : M DataFrame) (sidebar : DataFrame → M DataFrame)
    (metrics charts table : DataFrame → M unit)
    (s0 : State) (e : exn) (s1 : State) : Prop :=
  | raises_in_load :
      load (shows [Spinner "Loading penguin data..."] s0) = (inl e, s1) →
      step_raises load sidebar metrics charts table s0 e s1
  | raises_in_sidebar df sa :
      load (shows [Spinner "Loading penguin data..."] s0) = (inr df, sa) →
      sidebar df sa = (inl e, s1) →
      step_raises load sidebar metrics charts table s0 e s1
  | raises_in_metrics df sa fdf sb :
      load (shows [Spinner "Loading penguin data..."] s0) = (inr df, sa) →
      sidebar df sa = (inr fdf, sb) →
      metrics fdf sb = (inl e, s1) →
      step_raises load sidebar metrics charts table s0 e s1
  | raises_in_charts df sa fdf sb sc :
      load (shows [Spinner "Loading penguin data..."] s0) = (inr df, sa) →
      sidebar df sa = (inr fdf, sb) →
      metrics fdf sb = (inr (), sc) →
      charts fdf (shows [Markdown "---"] sc) = (inl e, s1) →
      step_raises load sidebar metrics charts table s0 e s1
  | raises_in_table df sa fdf sb sc sd :
      load (shows [Spinner "Loading penguin data..."] s0) = (inr df, sa) →
      sidebar df sa = (inr fdf, sb) →
      metrics fdf sb = (inr (), sc) →
      charts fdf (shows [Markdown "---"] sc) = (inr (), sd) →
      table fdf (shows [Markdown "---"] sd) = (inl e, s1) →
      step_raises load sidebar metrics charts table s0 e s1.

(** What the handler draws for [e]. *)
Definition handler_elements (g : Globals) (e : exn) : list element :=
  (Error ("Failed to load data: " +:+ str_exn e)
   :: (if decide (DEPLOYMENT_ENV g = "AWS") then [Warning aws_checklist] else [])
   ++ [Info "Please check your database connection and try again."])%list.

(** ** Sample processes *)

Definition globals_of (mode : string) : Globals :=
  {| DEPLOYMENT_ENV := mode; CONNECTION_TIMEOUT := 15 |}.

(** A warehouse that cannot be reached: [connect] raises [e]. *)
Definition unreachable (e : exn) : Snowflake :=
  {| sf_connect := λ _, inl e;
     sf_cursor := λ _, None;
     sf_execute := λ _ _, inl e |}.

(** A warehouse that answers every statement with [rows]. *)
Definition serving (rows : list Row) : Snowflake :=
  {| sf_connect := λ _, inr 1%nat;
     sf_cursor := λ _, None;
     sf_execute := λ _ _, inr {| result_set := rows; fetch_failure := None |} |}.

(** The texts of the two errors of the secret store, as a sample. *)
Definition sample_not_found_text : string :=
  "No secrets found. Valid paths for a secrets.toml file or secret directories are: "
  +:+ "/root/.streamlit/secrets.toml, /app/.streamlit/secrets.toml".

Definition sample_missing_key_text (key : string) : string :=
  py_repr
    ("st.secrets has no key " +:+ String dquote key +:+ String dquote ". "
     +:+ "Did you forget to add it to secrets.toml, mount it to secret directory, "
     +:+ "or the app settings on Streamlit Cloud? More info: "
     +:+ "https://docs.streamlit.io/deploy/streamlit-community-cloud/deploy-your-app/secrets-management").

(** No secrets file. *)
Definition no_secrets : SecretStore :=
  {| secrets_toml := None;
     secrets_not_found_text := sample_not_found_text;
     secrets_missing_key_text := sample_missing_key_text |}.

(** A secrets file with the tables [toml]. *)
Definition secrets_file (toml : gmap string (gmap string pyval)) : SecretStore :=
  {| secrets_toml := Some toml;
     secrets_not_found_text := sample_not_found_text;
     secrets_missing_key_text := sample_missing_key_text |}.

Definition bare_process (sf : Snowflake) : Process :=
  {| environ := ∅; secrets := no_secrets; snowflake := sf |}.

(** An interpreter with the default limit of 4300 digits.  The samples hold
    ASCII strings only, so its entry for other strings is never consulted;
    it is a placeholder, not the reading of any real interpreter. *)
Definition sample_interpreter : Interpreter :=
  {| int_max_str_digits := 4300;
     int_non_ascii := λ _, inl "invalid literal for int() with base 10" |}.

Definition connection_refused : exn :=
  PyException "OperationalError" "250001: Could not connect to Snowflake backend".

Definition keyboard_interrupt : exn := PyBaseException "KeyboardInterrupt" "".

(** The keyword arguments of the AWS path when no variable is set. *)
Definition aws_kwargs_unset : gmap string pyval :=
  list_to_map
    [("account", VNone);
     ("authenticator", VStr "WORKLOAD_IDENTITY");
     ("workload_identity_provider", VStr "AWS");
     ("warehouse", VStr "COMPUTE_WH");
     ("role", VNone);
     ("user", VNone);
     ("login_timeout", VInt 15);
     ("network_timeout", VInt 15)].

(** The state in which a failed connection attempt of the AWS path leaves a
    fresh process: header and spinner drawn, one call made. *)
Definition state_after_failed_connect : State :=
  {| resource_cache := None; data_cache := None; clock := 0%Q;
     connect_calls := [aws_kwargs_unset];
     statements := [];
     page := [HeaderHtml "☁️ AWS App Runner" "#FF9900" "#FFF8E7";
              Spinner "Loading penguin data..."] |}.

(** A process configured through the secret store only. *)
Definition local_secrets : gmap string pyval :=
  list_to_map
    [("account", VStr "xy12345"); ("user", VStr "penguin");
     ("password", VStr "s3cret")].

Definition local_process : Process :=
  {| environ := {[ "DEPLOYMENT_ENV" := "STAGING";
                   "SNOWFLAKE_CONNECTION_TIMEOUT" := "30" ]};
     secrets := secrets_file {[ "snowflake" := local_secrets ]};
     snowflake := serving sample_table |}.

(** The data cache holds nothing that is still valid. *)
Definition data_cache_stale (s : State) : Prop :=
  match data_cache s with
  | Some (created, _) => st.fresh 300 created (clock s) = false
  | None => True
  end.

(** ** The script as a whole, and what the renderers draw *)

(** Lines 7-21 and 275-276: the module run as a script.  The two settings
    are read first; [st.set_page_config] sets the title, icon and layout
    of the browser page and draws no element; then [main] runs. *)
Definition script (py : Interpreter) (p : Process)
    (widgets : gmap string (list string)) : M unit :=
  g ← lift (module_globals py p);
  main g p widgets.

(** What [render_metrics], [render_charts] and [render_data_table] draw. *)
Definition metrics_elements (df : DataFrame) : list element :=
  [Metric "Total Penguins" (MetricStr (format_comma (N.of_nat (length df))));
   Metric "Species" (MetricInt (pd.nunique (SPECIES <$> df)));
   Metric "Islands" (MetricInt (pd.nunique (ISLAND <$> df)));
   Metric "Avg Body Mass"
     (MetricStr (format_comma_0f (pd.mean (BODY_MASS_G <$> df)) +:+ "g"))].

Definition charts_elements (df : DataFrame) : list element :=
  [Markdown "#### 📊 Species Distribution";
   BarChart (pd.value_counts (SPECIES <$> df));
   Markdown "#### 🏝️ Penguins by Island";
   BarChart (pd.value_counts (ISLAND <$> df));
   Markdown "#### 📏 Body Mass vs Flipper Length";
   ScatterChart (scatter_rows df)].

Definition table_elements (df : DataFrame) : list element :=
  [Markdown "#### 📋 Data Table"; Dataframe df].

(** Everything the block under [try] draws after the load, for the table
    [df] and the view [filtered]. *)
Definition dashboard_elements (g : Globals) (df filtered : DataFrame)
  : list element :=
  (sidebar_elements df filtered ++ metrics_elements filtered
   ++ [Markdown "---"] ++ charts_elements filtered
   ++ [Markdown "---"] ++ table_elements filtered
   ++ [Markdown "---";
       Caption
         ("🚀 Running on **" +:+ DEPLOYMENT_ENV g +:+ "** | " +:+
          "Data: [Palmer Penguins](https://allisonhorst.github.io/palmerpenguins/)")])%list.

(** The three kinds of banner of the handler. *)
Definition is_banner (e : element) : bool :=
  match e with
  | Error _ | Warning _ | Info _ => true
  | _ => false
  end.

Definition is_multiselect (e : element) : bool :=
  match e with
  | SidebarMultiselect _ _ _ => true
  | _ => false
  end.

(** Both plotted measurements of a row are present. *)
Definition both_measured (r : Row) : Prop :=
  is_Some (FLIPPER_LENGTH_MM r) ∧ is_Some (BODY_MASS_G r).

Global Instance both_measured_dec r : Decision (both_measured r) :=
  and_dec _ _.

(** The heights of the bars of a chart, added up. *)
Definition total_count (m : gmap string nat) : nat :=
  map_fold (λ _ n acc, (n + acc)%nat) 0%nat m.

(** How often [x] occurs in a column. *)
Definition occurrences (x : string) (s : list string) : nat :=
  length (filter (λ y, y = x) s).

(** Every character of the string is an ASCII decimal digit. *)
Fixpoint all_digits (s : string) : Prop :=
  match s with
  | "" => True
  | String c s => is_Some (py_digit c) ∧ all_digits s
  end.

(** ** Facts about the dataframe operations *)
Section pandas_facts.

Lemma elem_of_unique_from {A} `{EqDecision A} (seen l : list A) x :
  x ∈ pd.unique_from seen l ↔ x ∈ l ∧ x ∉ seen.
Proof.
  revert seen. induction l as [|y l IH]; intros seen; simpl.
  - rewrite elem_of_nil. tauto.
  - destruct (decide (y ∈ seen)) as [Hy|Hy].
    + rewrite IH, elem_of_cons. split; [tauto|].
      intros [[->|Hx] Hn]; [done|tauto].
    + rewrite !elem_of_cons, IH, elem_of_cons.
      destruct (decide (x = y)) as [->|Hne]; [|tauto].
      split; intros _; [split; [by left|done]|by left].
Qed.

Lemma NoDup_unique_from {A} `{EqDecision A} (seen l : list A) :
  NoDup (pd.unique_from seen l).
Proof.
  revert seen. induction l as [|y l IH]; intros seen; simpl.
  - constructor.
  - destruct (decide (y ∈ seen)); [apply IH|].
    constructor; [|apply IH].
    rewrite elem_of_unique_from, elem_of_cons.
    intros [_ Hn]. apply Hn. by left.
Qed.

Lemma elem_of_unique {A} `{EqDecision A} (l : list A) x :
  x ∈ pd.unique l ↔ x ∈ l.
Proof.
  unfold pd.unique. rewrite elem_of_unique_from, elem_of_nil. tauto.
Qed.

Lemma NoDup_unique {A} `{EqDecision A} (l : list A) : NoDup (pd.unique l).
Proof. apply NoDup_unique_from. Qed.

Lemma elem_of_dropna {A} (s : list (option A)) x :
  x ∈ pd.dropna s ↔ Some x ∈ s.
Proof.
  unfold pd.dropna. rewrite list_elem_of_omap. split.
  - intros (c & Hc & Hx). simpl in Hx. by subst c.
  - intros Hx. by exists (Some x).
Qed.

Lemma zip_with_fmap_same {A B C D} (g : B → C → D) (f1 : A → B) (f2 : A → C)
    (l : list A) :
  zip_with g (f1 <$> l) (f2 <$> l) = (λ x, g (f1 x) (f2 x)) <$> l.
Proof. induction l as [|x l IH]; csimpl; [done|by rewrite IH]. Qed.

Lemma getitem_mask_fmap {A} (f : A → bool) (l : list A) :
  pd.getitem_mask l (f <$> l) = filter (λ x, f x) l.
Proof.
  induction l as [|x l IH]; csimpl; [done|].
  rewrite filter_cons, IH.
  destruct (decide (f x)) as [Hx|Hx]; destruct (f x); simpl in *; tauto.
Qed.

Lemma filter_ext_in {A} (P Q : A → Prop) `{!∀ x, Decision (P x)}
    `{!∀ x, Decision (Q x)} (l : list A) :
  (∀ x, x ∈ l → (P x ↔ Q x)) → filter P l = filter Q l.
Proof.
  induction l as [|x l IH]; intros HPQ; [done|].
  rewrite !filter_cons, IH by (intros y Hy; apply HPQ; by right).
  apply decide_ext. apply HPQ. by left.
Qed.

Lemma length_filter_mono {A} (P Q : A → Prop) `{!∀ x, Decision (P x)}
    `{!∀ x, Decision (Q x)} (l : list A) :
  (∀ x, P x → Q x) → (length (filter P l) ≤ length (filter Q l))%nat.
Proof.
  intros HPQ. rewrite <- (list_filter_filter_l P Q l HPQ).
  apply length_filter.
Qed.

Lemma filter_none {A} (P : A → Prop) `{!∀ x, Decision (P x)} (l : list A) :
  (∀ x, x ∈ l → ¬ P x) → filter P l = [].
Proof.
  induction l as [|x l IH]; intros HP; [done|].
  rewrite filter_cons_False by (apply HP; left).
  apply IH. intros y Hy. apply HP. by right.
Qed.

End pandas_facts.

Lemma sorted_Permutation l : sorted l ≡ₚ l.
Proof. apply merge_sort_Permutation. Qed.

Lemma elem_of_sorted l x : x ∈ sorted l ↔ x ∈ l.
Proof. by rewrite sorted_Permutation. Qed.

Lemma sorted_unique_spec (col : list string) :
  sorted_distinct_of (sorted (pd.unique col)) col.
Proof.
  split; [|split].
  - apply (Sorted_merge_sort String.le).
  - rewrite sorted_Permutation. apply NoDup_unique.
  - intros x. by rewrite elem_of_sorted, elem_of_unique.
Qed.

(** ** The mask selects by [row_selected] *)

Lemma filter_mask_fmap df species islands sex_filter :
  filter_mask df species islands sex_filter =
  (λ r, bool_decide (row_selected species islands sex_filter r)) <$> df.
Proof.
  unfold filter_mask, pd.and_, pd.isin, pd.isin_na.
  rewrite <- !list_fmap_compose, !zip_with_fmap_same.
  apply list_fmap_ext. intros i r _. simpl.
  destruct (decide (row_selected species islands sex_filter r)) as [Hr|Hr].
  - rewrite (bool_decide_eq_true_2 _ Hr).
    destruct Hr as (Hs & Hi & Hx).
    destruct (SEX r) as [x|]; simpl in Hx; [|done].
    by rewrite !bool_decide_eq_true_2.
  - rewrite (bool_decide_eq_false_2 _ Hr).
    apply not_true_iff_false. intros Hb. apply Hr.
    apply andb_prop in Hb as [Hb Hx]. apply andb_prop in Hb as [Hs Hi].
    apply bool_decide_eq_true in Hs, Hi.
    split_and!; [done..|].
    destruct (SEX r) as [x|]; simpl; [by apply bool_decide_eq_true in Hx|done].
Qed.

Lemma apply_filters_filter df species islands sex_filter :
  apply_filters df species islands sex_filter =
  filter (row_selected species islands sex_filter) df.
Proof.
  unfold apply_filters. rewrite filter_mask_fmap, getitem_mask_fmap.
  apply list_filter_iff. intros r. apply bool_decide_spec.
Qed.

(** ** Running the renderers *)

Lemma shows_shows es1 es2 s : shows es2 (shows es1 s) = shows (es1 ++ es2) s.
Proof. unfold shows, with_page. simpl. by rewrite (assoc_L (++)). Qed.

Lemma show_run e s : show e s = (inr (), shows [e] s).
Proof. done. Qed.

Ltac run_M :=
  repeat first
    [ progress unfold st.markdown, st.caption, st.error, st.warning, st.info,
        st.metric, st.bar_chart, st.scatter_chart, st.dataframe,
        st.sidebar_markdown, st.sidebar_multiselect, st.spinner
    | progress unfold mbind, M_bind, mret, M_ret
    | rewrite show_run
    | rewrite shows_shows
    | progress simpl ].

Lemma render_sidebar_run widgets df s :
  let filtered :=
    apply_filters df (selection widgets "Species" (species_options df))
      (selection widgets "Island" (island_options df))
      (selection widgets "Sex" (sex_options df)) in
  render_sidebar widgets df s
  = (inr filtered, shows (sidebar_elements df filtered) s).
Proof. intros filtered. unfold render_sidebar. run_M. done. Qed.

Lemma render_metrics_run df s :
  render_metrics df s
  = (inr (),
     shows [Metric "Total Penguins" (MetricStr (format_comma (N.of_nat (length df))));
            Metric "Species" (MetricInt (pd.nunique (SPECIES <$> df)));
            Metric "Islands" (MetricInt (pd.nunique (ISLAND <$> df)));
            Metric "Avg Body Mass"
              (MetricStr (format_comma_0f (pd.mean (BODY_MASS_G <$> df)) +:+ "g"))] s).
Proof. unfold render_metrics. run_M. done. Qed.

(** ** The default option sets *)

Lemma default_selects_present df :
  apply_filters df (species_options df) (island_options df) (sex_options df)
  = filter (λ r, is_Some (SEX r)) df.
Proof.
  rewrite apply_filters_filter. apply filter_ext_in. intros r Hr.
  unfold row_selected, species_options, island_options, sex_options.
  rewrite !elem_of_sorted, !elem_of_unique.
  split.
  - intros (_ & _ & Hx). destruct (SEX r); [by eexists|done].
  - intros [x Hx]. split_and!.
    + by apply list_elem_of_fmap_2.
    + by apply list_elem_of_fmap_2.
    + rewrite Hx. simpl. rewrite elem_of_sorted, elem_of_unique, elem_of_dropna.
      rewrite <- Hx. by apply list_elem_of_fmap_2.
Qed.

Lemma filter_all {A} (P : A → Prop) `{!∀ x, Decision (P x)} (l : list A) :
  Forall P l → filter P l = l.
Proof.
  induction 1 as [|x l Hx _ IH]; [done|].
  by rewrite filter_cons_True, IH.
Qed.

(** ** The Filter Engine *)

(** C1, as stated, fails: with no widget touched (every option selected by
    default), a table whose only row has no SEX value comes back empty. *)
Lemma C1_default_drops_unsexed_rows :
  (render_sidebar ∅ [adelie_unsexed] fresh_state).1 = inr []
  ∧ (render_sidebar ∅ [adelie_unsexed] fresh_state).1 ≠ inr [adelie_unsexed].
Proof. rewrite render_sidebar_run. simpl. split; [reflexivity|discriminate]. Qed.

(** C1, amended: when the selection of each of the three multiselects is its
    full option list, the Filtered View is exactly the rows of the
    Observation Table that have a SEX value, in table order, each once; it
    is the whole table when no row lacks a SEX value. *)
Theorem C1_default_selection_keeps_sexed_rows
    (widgets : gmap string (list string)) (df : DataFrame) (s : State) :
  selection widgets "Species" (species_options df) = species_options df →
  selection widgets "Island" (island_options df) = island_options df →
  selection widgets "Sex" (sex_options df) = sex_options df →
  (render_sidebar widgets df s).1 = inr (filter (λ r, is_Some (SEX r)) df)
  ∧ (Forall (λ r, is_Some (SEX r)) df → (render_sidebar widgets df s).1 = inr df).
Proof.
  intros Hsp Hisl Hsex. rewrite render_sidebar_run. simpl.
  rewrite Hsp, Hisl, Hsex, default_selects_present.
  split; [done|]. intros Hall. by rewrite filter_all.
Qed.

Lemma C1_default_selection_witness :
  selection ∅ "Species" (species_options sample_table) = species_options sample_table
  ∧ selection ∅ "Island" (island_options sample_table) = island_options sample_table
  ∧ selection ∅ "Sex" (sex_options sample_table) = sex_options sample_table
  ∧ (render_sidebar ∅ sample_table fresh_state).1 = inr [adelie_male; gentoo_female].
Proof.
  split_and!; [reflexivity..|].
  apply (C1_default_selection_keeps_sexed_rows ∅ sample_table fresh_state);
    reflexivity.
Defined.

(** C5: shrinking the selected set of one dimension, the other two kept,
    never makes the Filtered View longer. *)
Theorem C5_filter_monotone (df : DataFrame)
    (species species' islands islands' sexes sexes' : list string) :
  (species ⊆ species' ∧ islands = islands' ∧ sexes = sexes')
  ∨ (species = species' ∧ islands ⊆ islands' ∧ sexes = sexes')
  ∨ (species = species' ∧ islands = islands' ∧ sexes ⊆ sexes') →
  (length (apply_filters df species islands sexes)
   ≤ length (apply_filters df species' islands' sexes'))%nat.
Proof.
  intros Hsub. rewrite !apply_filters_filter.
  apply length_filter_mono. intros r (Hs & Hi & Hx).
  destruct Hsub as [(Hsub & <- & <-)|[(<- & Hsub & <-)|(<- & <- & Hsub)]];
    split_and!; auto.
  destruct (SEX r); simpl in *; auto.
Qed.

Lemma C5_filter_monotone_witness :
  ["Adelie"] ⊆ ["Adelie"; "Gentoo"]
  ∧ (length (apply_filters sample_table ["Adelie"] ["Biscoe"; "Torgersen"] ["FEMALE"; "MALE"])
     ≤ length (apply_filters sample_table ["Adelie"; "Gentoo"] ["Biscoe"; "Torgersen"] ["FEMALE"; "MALE"]))%nat.
Proof.
  assert (["Adelie"] ⊆ ["Adelie"; "Gentoo"]) as Hsub.
  { intros x Hx. apply list_elem_of_singleton in Hx as ->. left. }
  split; [exact Hsub|].
  apply C5_filter_monotone. left. split_and!; [exact Hsub|reflexivity..].
Defined.

(** C6: filtering the Filtered View again with the same three selected sets
    changes nothing. *)
Theorem C6_filter_idempotent (df : DataFrame) (species islands sexes : list string) :
  apply_filters (apply_filters df species islands sexes) species islands sexes
  = apply_filters df species islands sexes.
Proof.
  rewrite !apply_filters_filter. by apply list_filter_filter_l.
Qed.

(** C8: the three multiselects are drawn with the sorted distinct species,
    the sorted distinct islands and the sorted distinct present values of
    the SEX column, each with every option as default.  The selection of a
    multiselect is what the user picked, and the full option list while the
    widget is untouched; the returned view is exactly the rows of the table
    whose three values are members of the three selections. *)
Theorem C8_filter_engine_contract
    (widgets : gmap string (list string)) (df : DataFrame) (s : State) :
  let species := from_option id (species_options df) (widgets !! "Species") in
  let islands := from_option id (island_options df) (widgets !! "Island") in
  let sex_filter := from_option id (sex_options df) (widgets !! "Sex") in
  ∃ filtered,
    render_sidebar widgets df s
    = (inr filtered,
       shows [SidebarMarkdown "### 🔍 Filters";
              SidebarMultiselect "Species" (species_options df) (species_options df);
              SidebarMultiselect "Island" (island_options df) (island_options df);
              SidebarMultiselect "Sex" (sex_options df) (sex_options df);
              SidebarMarkdown "---";
              SidebarMarkdown
                ("**Showing " +:+ format_comma (N.of_nat (length filtered))
                 +:+ "** of " +:+ format_comma (N.of_nat (length df))
                 +:+ " penguins")] s)
    ∧ sorted_distinct_of (species_options df) (SPECIES <$> df)
    ∧ sorted_distinct_of (island_options df) (ISLAND <$> df)
    ∧ Sorted String.le (sex_options df)
    ∧ NoDup (sex_options df)
    ∧ (∀ x, x ∈ sex_options df ↔ Some x ∈ SEX <$> df)
    ∧ filtered = filter (row_selected species islands sex_filter) df.
Proof.
  intros species islands sex_filter.
  exists (apply_filters df species islands sex_filter).
  split_and!.
  - apply render_sidebar_run.
  - apply sorted_unique_spec.
  - apply sorted_unique_spec.
  - apply (sorted_unique_spec (pd.dropna (SEX <$> df))).
  - apply (sorted_unique_spec (pd.dropna (SEX <$> df))).
  - intros x. rewrite <- elem_of_dropna.
    apply (sorted_unique_spec (pd.dropna (SEX <$> df))).
  - apply apply_filters_filter.
Qed.

(** C10: whatever is selected, the Filtered View is a sub-list of the
    Observation Table, and each of its rows has a SEX value. *)
Theorem C10_filtered_rows_have_sex
    (widgets : gmap string (list string)) (df : DataFrame) (s : State) :
  ∃ filtered s',
    render_sidebar widgets df s = (inr filtered, s')
    ∧ filtered `sublist_of` df
    ∧ Forall (λ r, r ∈ df ∧ is_Some (SEX r)) filtered.
Proof.
  eexists _, _. split; [apply render_sidebar_run|]. simpl.
  rewrite apply_filters_filter. split; [apply sublist_filter|].
  apply Forall_forall. intros r [(_ & _ & Hx) Hr]%list_elem_of_filter.
  split; [done|]. destruct (SEX r); [by eexists|done].
Qed.

(** C4: with one of the three multiselects emptied, the Filtered View is
    empty, and the metrics drawn for it are a count of 0, 0 species, 0
    islands and the mean of no value (NaN, drawn as [nan]); no exception is
    raised on the way. *)
Theorem C4_empty_selection_empty_view
    (widgets : gmap string (list string)) (df : DataFrame) (s : State) :
  widgets !! "Species" = Some [] ∨ widgets !! "Island" = Some []
  ∨ widgets !! "Sex" = Some [] →
  ∃ filtered s',
    render_sidebar widgets df s = (inr filtered, s')
    ∧ filtered = []
    ∧ length filtered = 0%nat
    ∧ pd.nunique (SPECIES <$> filtered) = 0%nat
    ∧ pd.nunique (ISLAND <$> filtered) = 0%nat
    ∧ pd.mean (BODY_MASS_G <$> filtered) = None
    ∧ render_metrics filtered s'
      = (inr (),
         shows [Metric "Total Penguins" (MetricStr "0");
                Metric "Species" (MetricInt 0);
                Metric "Islands" (MetricInt 0);
                Metric "Avg Body Mass" (MetricStr "nang")] s').
Proof.
  intros Hempty.
  assert (apply_filters df (selection widgets "Species" (species_options df))
            (selection widgets "Island" (island_options df))
            (selection widgets "Sex" (sex_options df)) = []) as Hnil.
  { rewrite apply_filters_filter. apply filter_none.
    intros r _ (Hs & Hi & Hx). unfold selection in *.
    destruct Hempty as [H|[H|H]]; rewrite H in *; simpl in *.
    - inversion Hs.
    - inversion Hi.
    - destruct (SEX r); [inversion Hx|done]. }
  exists [], (shows (sidebar_elements df []) s).
  split_and!; try reflexivity.
  - rewrite render_sidebar_run. simpl. by rewrite Hnil.
  - by rewrite render_metrics_run.
Qed.

Lemma C4_empty_selection_witness :
  ({[ "Sex" := [] ]} : gmap string (list string)) !! "Sex" = Some []
  ∧ ∃ s',
      render_sidebar {[ "Sex" := [] ]} sample_table fresh_state = (inr [], s')
      ∧ page (render_metrics [] s').2
        = (page s' ++ [Metric "Total Penguins" (MetricStr "0");
                       Metric "Species" (MetricInt 0);
                       Metric "Islands" (MetricInt 0);
                       Metric "Avg Body Mass" (MetricStr "nang")])%list.
Proof.
  split; [reflexivity|].
  destruct (C4_empty_selection_empty_view {[ "Sex" := [] ]} sample_table fresh_state)
    as (filtered & s' & Hrun & -> & _ & _ & _ & _ & Hmetrics).
  { right. right. reflexivity. }
  exists s'. split; [exact Hrun|]. by rewrite Hmetrics.
Defined.

(** ** The Orchestrator *)

Lemma render_header_run g s :
  ∃ label color bg_color,
    render_header g s = (inr (), shows [HeaderHtml label color bg_color] s).
Proof.
  unfold render_header.
  destruct (default _ (badge_config !! DEPLOYMENT_ENV g)) as [[label color] bg].
  by exists label, color, bg.
Qed.

Lemma main_except_run g e s :
  main_except g e s = (inr (), shows (handler_elements g e) s).
Proof.
  unfold main_except, handler_elements.
  destruct (decide (DEPLOYMENT_ENV g = "AWS")); run_M; done.
Qed.

Lemma main_try_propagates g load sidebar metrics charts table s0 e s1 :
  step_raises load sidebar metrics charts table s0 e s1 →
  main_try g load sidebar metrics charts table s0 = (inl e, s1).
Proof.
  unfold main_try.
  destruct 1 as [Hl|df sa Hl Hs|df sa fdf sb Hl Hs Hm
                |df sa fdf sb sc Hl Hs Hm Hc|df sa fdf sb sc sd Hl Hs Hm Hc Ht];
    run_M; rewrite Hl; try done.
  all: run_M; rewrite Hs; try done.
  all: run_M; rewrite Hm; try done.
  all: run_M; rewrite Hc; try done.
  run_M. by rewrite Ht.
Qed.

Lemma main_with_run g load sidebar metrics charts table s :
  main_with g load sidebar metrics charts table s
  = match main_try g load sidebar metrics charts table (render_header g s).2 with
    | (inr x, s') => (inr x, s')
    | (inl e, s') =>
        if isinstance_Exception e then main_except g e s' else (inl e, s')
    end.
Proof.
  unfold main_with. destruct (render_header_run g s) as (l & c & b & Hh).
  unfold mbind, M_bind. rewrite Hh. done.
Qed.

(** C3, as stated, fails: an exception that is not an instance of
    [Exception] is not caught.  Here the connection attempt is interrupted
    from the keyboard, and the KeyboardInterrupt leaves [main]. *)
Lemma C3_keyboard_interrupt_escapes :
  step_raises
    (load_penguins_data (globals_of "AWS") (bare_process (unreachable keyboard_interrupt)))
    (render_sidebar ∅) render_metrics render_charts render_data_table
    (render_header (globals_of "AWS") fresh_state).2
    keyboard_interrupt state_after_failed_connect
  ∧ main (globals_of "AWS") (bare_process (unreachable keyboard_interrupt)) ∅
      fresh_state
    = (inl keyboard_interrupt, state_after_failed_connect).
Proof. split; [by apply raises_in_load|reflexivity]. Qed.

(** C3, amended: an exception that is an instance of [Exception] and leaves
    the load, the filter or one of the three renderers is caught in [main]:
    the run ends normally, having drawn an error with the description of
    the exception, then the checklist exactly when the deployment mode is
    AWS, then the closing hint.  No instance of [Exception] leaves [main].
    An exception that is not an instance of [Exception] and leaves one of
    these steps is not caught: it leaves [main] with nothing more drawn. *)
Theorem C3_exception_boundary (g : Globals)
    (load : M DataFrame) (sidebar : DataFrame → M DataFrame)
    (metrics charts table : DataFrame → M unit) (s : State) (e : exn) (s1 : State) :
  step_raises load sidebar metrics charts table (render_header g s).2 e s1 →
  isinstance_Exception e = true →
  main_with g load sidebar metrics charts table s
  = (inr (), shows (handler_elements g e) s1)
  ∧ Error ("Failed to load data: " +:+ str_exn e) ∈ handler_elements g e
  ∧ (Warning aws_checklist ∈ handler_elements g e ↔ DEPLOYMENT_ENV g = "AWS")
  ∧ (∀ load' sidebar' metrics' charts' table' s' e' s'',
       main_with g load' sidebar' metrics' charts' table' s' = (inl e', s'') →
       isinstance_Exception e' = false)
  ∧ (∀ load' sidebar' metrics' charts' table' s' e' s'',
       step_raises load' sidebar' metrics' charts' table'
         (render_header g s').2 e' s'' →
       isinstance_Exception e' = false →
       main_with g load' sidebar' metrics' charts' table' s' = (inl e', s'')).
Proof.
  intros Hraise He. split_and!.
  - rewrite main_with_run, (main_try_propagates _ _ _ _ _ _ _ _ _ Hraise), He.
    apply main_except_run.
  - left.
  - unfold handler_elements. destruct (decide (DEPLOYMENT_ENV g = "AWS")) as [Hg|Hg].
    + split; [done|]. intros _. right. left.
    + split; [|done]. intros Hin.
      apply elem_of_cons in Hin as [Hin|Hin]; [done|].
      apply list_elem_of_singleton in Hin. done.
  - intros load' sidebar' metrics' charts' table' s' e' s''.
    rewrite main_with_run.
    destruct (main_try _ _ _ _ _ _ _) as [[e0|[]] s0]; [|done].
    destruct (isinstance_Exception e0) eqn:He0.
    + rewrite main_except_run. done.
    + by intros [= <- <-].
  - intros load' sidebar' metrics' charts' table' s' e' s'' Hraise' He'.
    by rewrite main_with_run,
      (main_try_propagates _ _ _ _ _ _ _ _ _ Hraise'), He'.
Qed.

Lemma C3_exception_boundary_witness :
  step_raises
    (load_penguins_data (globals_of "AWS") (bare_process (unreachable connection_refused)))
    (render_sidebar ∅) render_metrics render_charts render_data_table
    (render_header (globals_of "AWS") fresh_state).2
    connection_refused state_after_failed_connect
  ∧ isinstance_Exception connection_refused = true
  ∧ main (globals_of "AWS") (bare_process (unreachable connection_refused)) ∅ fresh_state
    = (inr (),
       shows
         [Error "Failed to load data: 250001: Could not connect to Snowflake backend";
          Warning aws_checklist;
          Info "Please check your database connection and try again."]
         state_after_failed_connect).
Proof.
  assert (step_raises
    (load_penguins_data (globals_of "AWS") (bare_process (unreachable connection_refused)))
    (render_sidebar ∅) render_metrics render_charts render_data_table
    (render_header (globals_of "AWS") fresh_state).2
    connection_refused state_after_failed_connect) as Hraise
    by (by apply raises_in_load).
  split_and!; [exact Hraise|reflexivity|].
  exact (proj1 (C3_exception_boundary (globals_of "AWS") _ _ _ _ _
                  fresh_state connection_refused state_after_failed_connect
                  Hraise eq_refl)).
Defined.

(** ** Reading the timeout *)

Lemma py_digit_char (d : N) :
  (d < 10)%N → py_digit (pretty_N_char d) = Some (Z.of_N d).
Proof.
  intros Hd.
  destruct d as [|[[[[]|[]|]|[[]|[]|]|]|[[[]|[]|]|[[]|[]|]|]|]]; try lia; reflexivity.
Qed.

Lemma py_digit_not_special c :
  is_Some (py_digit c) →
  c ≠ "_"%char ∧ c ≠ "-"%char ∧ c ≠ "+"%char ∧ py_isspace c = false.
Proof.
  intros [d Hd]. split_and!; try (intros ->; by vm_compute in Hd).
  unfold py_digit in Hd. unfold py_isspace.
  destruct (bool_decide _) eqn:Hrange in Hd; [|done].
  apply bool_decide_eq_true in Hrange.
  apply bool_decide_eq_false. lia.
Qed.

Lemma all_digits_rev_app s1 s2 :
  all_digits s1 → all_digits s2 → all_digits (String.rev_app s1 s2).
Proof.
  revert s2. induction s1 as [|c s1 IH]; intros s2; simpl; [done|].
  intros [Hc H1] H2. apply IH; [done|]. by split.
Qed.

Lemma rev_app_rev_app s1 s2 s3 :
  String.rev_app (String.rev_app s1 s2) s3 = String.rev_app s2 (s1 +:+ s3).
Proof.
  revert s2 s3. induction s1 as [|c s1 IH]; intros s2 s3; simpl; [done|].
  by rewrite IH.
Qed.

Lemma string_app_empty_r s : s +:+ "" = s.
Proof.
  induction s as [|c s IH]; [done|].
  change (String c (s +:+ "") = String c s). by rewrite IH.
Qed.

Lemma lstrip_digits s : all_digits s → lstrip s = s.
Proof.
  destruct s as [|c s]; simpl; [done|]. intros [Hc _].
  apply py_digit_not_special in Hc as (_ & _ & _ & ->). done.
Qed.

Lemma strip_digits s : all_digits s → strip s = s.
Proof.
  intros Hs. unfold strip. rewrite (lstrip_digits s Hs).
  rewrite lstrip_digits by (by apply all_digits_rev_app).
  unfold String.rev. by rewrite rev_app_rev_app, string_app_empty_r.
Qed.

Lemma split_sign_digits s : all_digits s → split_sign s = (false, s).
Proof.
  destruct s as [|c s]; [done|]. intros [Hc _].
  apply py_digit_not_special in Hc as (_ & Hminus & Hplus & _).
  destruct c as [[] [] [] [] [] [] [] []]; done.
Qed.

Lemma all_digits_is_ascii s : all_digits s → is_ascii s = true.
Proof.
  induction s as [|c s IH]; [done|]. intros [[d Hd] Hs]. simpl.
  rewrite IH, andb_true_r by done. apply bool_decide_eq_true.
  unfold py_digit in Hd. destruct (bool_decide _) eqn:Hrange in Hd; [|done].
  apply bool_decide_eq_true in Hrange. lia.
Qed.

Lemma count_digits_all s :
  all_digits s → count_digits s = N.of_nat (String.length s).
Proof.
  induction s as [|c s IH]; [done|]. intros [[d Hd] Hs].
  cbn [count_digits String.length]. rewrite Hd, IH by done. lia.
Qed.

Lemma int_ascii_digits (m : N) (s : string) (n : Z) :
  all_digits s → int_digits 0 false s = Some n →
  (N.of_nat (String.length s) ≤ 640 ∨ m = 0 ∨ N.of_nat (String.length s) ≤ m)%N →
  int_ascii m s = inr n.
Proof.
  intros Hs Hn Hlim. unfold int_ascii.
  rewrite strip_digits, split_sign_digits, Hn, count_digits_all by done.
  rewrite bool_decide_eq_false_2 by lia. done.
Qed.

Lemma int_digits_step acc b c d s :
  py_digit c = Some d →
  int_digits acc b (String c s) = int_digits (10 * acc + d)%Z true s.
Proof.
  intros Hd. simpl.
  destruct (py_digit_not_special c) as (Hu & _); [by eexists|].
  rewrite bool_decide_eq_false_2 by done. by rewrite Hd.
Qed.

Lemma pretty_N_go_digits (x : N) :
  ∃ k : Z, (0 ≤ k)%Z ∧ (x = 0%N → k = 0%Z) ∧ ∀ s acc b,
    (all_digits s → all_digits (pretty_N_go x s))
    ∧ ((0 < x)%N →
       int_digits acc b (pretty_N_go x s)
       = int_digits (acc * 10 ^ k + Z.of_N x)%Z true s).
Proof.
  induction (N.lt_wf_0 x) as [x _ IH].
  destruct (decide (x = 0)%N) as [->|Hx].
  { exists 0%Z. split_and!; [done|done|]. intros s acc b. rewrite pretty_N_go_0.
    split; [done|lia]. }
  assert (0 < x)%N as Hpos by lia.
  assert (x `mod` 10 < 10)%N as Hmod by (apply N.mod_lt; lia).
  pose proof (N.div_mod x 10 ltac:(lia)) as Hdm.
  destruct (IH (x `div` 10)%N) as (k & Hk & Hk0 & IHk).
  { apply N.div_lt; lia. }
  exists (k + 1)%Z. split_and!; [lia|lia|]. intros s acc b.
  rewrite pretty_N_go_step by done.
  destruct (IHk (String (pretty_N_char (x `mod` 10)) s) acc b) as [IHd IHv].
  split.
  - intros Hs. apply IHd. split; [|done].
    rewrite py_digit_char by done. by eexists.
  - intros _. rewrite Z.pow_add_r by lia.
    destruct (decide (x `div` 10 = 0)%N) as [Hq|Hq].
    + rewrite Hq, pretty_N_go_0.
      rewrite (int_digits_step _ _ _ _ _ (py_digit_char _ Hmod)).
      rewrite (Hk0 Hq). f_equal. lia.
    + rewrite IHv by lia.
      rewrite (int_digits_step _ _ _ _ _ (py_digit_char _ Hmod)).
      f_equal. lia.
Qed.

Lemma py_int_pretty (py : Interpreter) (n : N) :
  (N.of_nat (String.length (pretty n)) ≤ 640 ∨ int_max_str_digits py = 0
   ∨ N.of_nat (String.length (pretty n)) ≤ int_max_str_digits py)%N →
  py_int py (pretty n) = inr (Z.of_N n).
Proof.
  intros Hlim.
  assert (all_digits (pretty n) ∧ int_digits 0 false (pretty n) = Some (Z.of_N n))
    as [Hd Hv].
  { unfold pretty, pretty_N. destruct (decide (n = 0)%N) as [->|Hn].
    - split; [|done]. split; [by eexists|done].
    - destruct (pretty_N_go_digits n) as (k & _ & _ & Hgo).
      destruct (Hgo "" 0%Z false) as [Hd Hv].
      split; [by apply Hd|]. rewrite Hv by lia. simpl. f_equal; lia. }
  unfold py_int. rewrite all_digits_is_ascii by done.
  by apply int_ascii_digits.
Qed.

(** ** The Connection Provider *)

Lemma call_kwargs_timeouts (callee : string) (bundle : gmap string pyval)
    (t : pyval) :
  match connector.call_kwargs callee bundle
          [("login_timeout", t); ("network_timeout", t)] with
  | inr kwargs =>
      bundle !! "login_timeout" = None ∧ bundle !! "network_timeout" = None
      ∧ kwargs = <["network_timeout" := t]> (<["login_timeout" := t]> bundle)
  | inl e =>
      (is_Some (bundle !! "login_timeout") ∨ is_Some (bundle !! "network_timeout"))
      ∧ ∃ msg, e = PyException "TypeError" msg
  end.
Proof.
  simpl. destruct (bundle !! "login_timeout") as [v|] eqn:Hl.
  { split; [left; by eexists|by eexists]. }
  rewrite lookup_insert_ne by done.
  destruct (bundle !! "network_timeout") as [v|] eqn:Hn.
  { split; [right; by eexists|by eexists]. }
  done.
Qed.

Lemma connect_frame p kwargs s r s' :
  connector.connect p kwargs s = (r, s') →
  r = sf_connect (snowflake p) kwargs
  ∧ s' = with_connect_calls (λ l, (l ++ [kwargs])%list) s.
Proof. by intros [= <- <-]. Qed.

(** The third branch, step by step. *)
Lemma secret_store_path g p s :
  DEPLOYMENT_ENV g ≠ "AWS" → DEPLOYMENT_ENV g ≠ "DOCKER" →
  get_db_connection_body g p s
  = match secrets_toml (secrets p) with
    | None =>
        (inl (PyException "StreamlitSecretNotFoundError"
                (secrets_not_found_text (secrets p))), s)
    | Some toml =>
        match toml !! "snowflake" with
        | None =>
            (inl (PyException "KeyError"
                    (secrets_missing_key_text (secrets p) "snowflake")), s)
        | Some bundle =>
            match connector.call_kwargs "snowflake.connector.connect" bundle
                    [("login_timeout", VInt (CONNECTION_TIMEOUT g));
                     ("network_timeout", VInt (CONNECTION_TIMEOUT g))] with
            | inl e => (inl e, s)
            | inr kwargs => connector.connect p kwargs s
            end
        end
    end.
Proof.
  intros Ha Hd. unfold get_db_connection_body. rewrite !decide_False by done.
  unfold st.secrets_getitem, mbind, M_bind, lift.
  destruct (secrets_toml (secrets p)) as [toml|]; [|done].
  destruct (toml !! "snowflake") as [bundle|]; [|done].
  cbn -[connector.call_kwargs].
  by destruct (connector.call_kwargs _ bundle _).
Qed.

(** What the third branch does to the list of calls: nothing, or one call
    with the bundle of the secrets file and the two timeouts. *)
Lemma secret_store_path_calls g p s r s' :
  DEPLOYMENT_ENV g ≠ "AWS" → DEPLOYMENT_ENV g ≠ "DOCKER" →
  get_db_connection_body g p s = (r, s') →
  s' = s
  ∨ ∃ toml bundle,
      secrets_toml (secrets p) = Some toml ∧ toml !! "snowflake" = Some bundle
      ∧ s' = with_connect_calls
               (λ l, (l ++ [<["network_timeout" := VInt (CONNECTION_TIMEOUT g)]>
                              (<["login_timeout" := VInt (CONNECTION_TIMEOUT g)]>
                                 bundle)])%list) s.
Proof.
  intros Ha Hd. rewrite secret_store_path by done.
  destruct (secrets_toml (secrets p)) as [toml|]; [|intros [= <- <-]; by left].
  destruct (toml !! "snowflake") as [bundle|] eqn:Hb; [|intros [= <- <-]; by left].
  pose proof (call_kwargs_timeouts "snowflake.connector.connect" bundle
                (VInt (CONNECTION_TIMEOUT g))) as Hkw.
  destruct (connector.call_kwargs _ bundle _) as [e|kwargs].
  - intros [= <- <-]. by left.
  - destruct Hkw as (_ & _ & ->). intros Hc.
    apply connect_frame in Hc as [_ ->]. right. by exists toml, bundle.
Qed.

(** The body of [get_db_connection] makes at most one call to [connect] and
    touches nothing else. *)
Lemma get_db_connection_body_calls g p s r s' :
  get_db_connection_body g p s = (r, s') →
  ∃ calls, s' = with_connect_calls (λ l, (l ++ calls)%list) s
    ∧ (length calls ≤ 1)%nat
    ∧ Forall (λ kw, kw !! "login_timeout" = Some (VInt (CONNECTION_TIMEOUT g))
                  ∧ kw !! "network_timeout" = Some (VInt (CONNECTION_TIMEOUT g)))
        calls.
Proof.
  assert (∀ s0 : State, s0 = with_connect_calls (λ l, (l ++ [])%list) s0) as Hid.
  { intros [? ? ? ? ? ?]. unfold with_connect_calls. simpl. by rewrite app_nil_r. }
  destruct (decide (DEPLOYMENT_ENV g = "AWS")) as [Ha|Ha];
    [|destruct (decide (DEPLOYMENT_ENV g = "DOCKER")) as [Hd|Hd]].
  - unfold get_db_connection_body. rewrite decide_True by done.
    intros Hc. apply connect_frame in Hc as [_ ->]. eexists [_]. split_and!; [done|done|].
    constructor; [|done]. by vm_compute.
  - unfold get_db_connection_body. rewrite decide_False, decide_True by done.
    intros Hc. apply connect_frame in Hc as [_ ->]. eexists [_]. split_and!; [done|done|].
    constructor; [|done]. by vm_compute.
  - intros Hrun.
    destruct (secret_store_path_calls _ _ _ _ _ Ha Hd Hrun)
      as [->|(toml & bundle & _ & _ & ->)].
    + exists []. split_and!; [apply Hid|simpl; lia|done].
    + eexists [_]. split_and!; [done|done|].
      constructor; [|done]. split.
      * rewrite lookup_insert_ne by done. apply lookup_insert_eq.
      * apply lookup_insert_eq.
Qed.

(** C2: the deployment mode selects the credential path.  AWS connects with
    the workload-identity authenticator and no password; DOCKER connects
    with account, user, password, warehouse, role and database read from
    the environment; every other value, LOCAL included, unpacks the
    [snowflake] bundle of the secret store and connects with nothing but
    that bundle and the two timeouts.  Every call to [connect] carries
    [login_timeout] and [network_timeout], both the configured timeout,
    which is 15 when SNOWFLAKE_CONNECTION_TIMEOUT is unset and the number
    whose decimal numeral the variable holds otherwise; the mode is the
    value of DEPLOYMENT_ENV, LOCAL when unset. *)
Theorem C2_credential_paths (py : Interpreter) (g : Globals) (p : Process)
    (s : State) :
  let timeout := VInt (CONNECTION_TIMEOUT g) in
  let env := λ key : string, from_option VStr VNone (environ p !! key) in
  let aws_kwargs : gmap string pyval :=
    list_to_map
      [("account", env "SNOWFLAKE_ACCOUNT");
       ("authenticator", VStr "WORKLOAD_IDENTITY");
       ("workload_identity_provider", VStr "AWS");
       ("warehouse", VStr (default "COMPUTE_WH" (environ p !! "SNOWFLAKE_WAREHOUSE")));
       ("role", env "SNOWFLAKE_ROLE");
       ("user", env "SNOWFLAKE_USER");
       ("login_timeout", timeout);
       ("network_timeout", timeout)] in
  let docker_kwargs : gmap string pyval :=
    list_to_map
      [("account", env "SNOWFLAKE_ACCOUNT");
       ("user", env "SNOWFLAKE_USER");
       ("password", env "SNOWFLAKE_PASSWORD");
       ("warehouse", VStr (default "COMPUTE_WH" (environ p !! "SNOWFLAKE_WAREHOUSE")));
       ("role", env "SNOWFLAKE_ROLE");
       ("database", env "DEMO_DATABASE");
       ("login_timeout", timeout);
       ("network_timeout", timeout)] in
  (DEPLOYMENT_ENV g = "AWS" →
     get_db_connection_body g p s
     = (sf_connect (snowflake p) aws_kwargs,
        with_connect_calls (λ l, (l ++ [aws_kwargs])%list) s)
     ∧ aws_kwargs !! "password" = None)
  ∧ (DEPLOYMENT_ENV g = "DOCKER" →
     get_db_connection_body g p s
     = (sf_connect (snowflake p) docker_kwargs,
        with_connect_calls (λ l, (l ++ [docker_kwargs])%list) s)
     ∧ docker_kwargs !! "authenticator" = None)
  ∧ (DEPLOYMENT_ENV g ≠ "AWS" → DEPLOYMENT_ENV g ≠ "DOCKER" →
     (∀ toml bundle,
        secrets_toml (secrets p) = Some toml → toml !! "snowflake" = Some bundle →
        bundle !! "login_timeout" = None → bundle !! "network_timeout" = None →
        let kwargs :=
          <["network_timeout" := timeout]> (<["login_timeout" := timeout]> bundle) in
        get_db_connection_body g p s
        = (sf_connect (snowflake p) kwargs,
           with_connect_calls (λ l, (l ++ [kwargs])%list) s))
     ∧ (∀ r s', get_db_connection_body g p s = (r, s') →
        connect_calls s' = connect_calls s
        ∨ ∃ toml bundle,
            secrets_toml (secrets p) = Some toml
            ∧ toml !! "snowflake" = Some bundle
            ∧ connect_calls s'
              = (connect_calls s
                 ++ [<["network_timeout" := timeout]>
                       (<["login_timeout" := timeout]> bundle)])%list))
  ∧ (∀ r s', get_db_connection_body g p s = (r, s') →
     ∃ calls, connect_calls s' = (connect_calls s ++ calls)%list
       ∧ Forall (λ kw, kw !! "login_timeout" = Some timeout
                     ∧ kw !! "network_timeout" = Some timeout) calls)
  ∧ (environ p !! "SNOWFLAKE_CONNECTION_TIMEOUT" = None →
     ∃ g0, module_globals py p = inr g0 ∧ CONNECTION_TIMEOUT g0 = 15%Z
           ∧ DEPLOYMENT_ENV g0 = default "LOCAL" (environ p !! "DEPLOYMENT_ENV"))
  ∧ (∀ n : N,
     environ p !! "SNOWFLAKE_CONNECTION_TIMEOUT" = Some (pretty n) →
     (N.of_nat (String.length (pretty n)) ≤ 640 ∨ int_max_str_digits py = 0
      ∨ N.of_nat (String.length (pretty n)) ≤ int_max_str_digits py)%N →
     ∃ g0, module_globals py p = inr g0 ∧ CONNECTION_TIMEOUT g0 = Z.of_N n
           ∧ DEPLOYMENT_ENV g0 = default "LOCAL" (environ p !! "DEPLOYMENT_ENV")).
Proof.
  intros timeout env aws_kwargs docker_kwargs.
  assert (∀ key, os.getenv p key = env key) as Henv.
  { intros key. unfold os.getenv, env. by destruct (environ p !! key). }
  split_and!.
  - intros Hg. unfold get_db_connection_body. rewrite decide_True by done.
    rewrite !Henv. split; [done|by vm_compute].
  - intros Hg. unfold get_db_connection_body.
    rewrite decide_False by (rewrite Hg; done). rewrite decide_True by done.
    rewrite !Henv. split; [done|by vm_compute].
  - intros Ha Hd. split.
    + intros toml bundle Ht Hb Hl Hn kwargs. rewrite secret_store_path by done.
      rewrite Ht, Hb. simpl. rewrite Hl, lookup_insert_ne, Hn by done. done.
    + intros r s' Hrun.
      destruct (secret_store_path_calls _ _ _ _ _ Ha Hd Hrun)
        as [->|(toml & bundle & Ht & Hb & ->)]; [by left|].
      right. by exists toml, bundle.
  - intros r s' Hrun.
    destruct (get_db_connection_body_calls _ _ _ _ _ Hrun) as (calls & -> & _ & Hall).
    by exists calls.
  - intros Hunset. unfold module_globals, os.getenv_default. rewrite Hunset.
    by eexists.
  - intros n Hset Hlim. unfold module_globals, os.getenv_default.
    rewrite Hset. simpl. rewrite py_int_pretty by done. by eexists.
Qed.

Lemma C2_credential_paths_witness :
  environ local_process !! "SNOWFLAKE_CONNECTION_TIMEOUT" = Some (pretty 30%N)
  ∧ module_globals sample_interpreter local_process
    = inr {| DEPLOYMENT_ENV := "STAGING"; CONNECTION_TIMEOUT := 30 |}
  ∧ get_db_connection_body
      {| DEPLOYMENT_ENV := "STAGING"; CONNECTION_TIMEOUT := 30 |}
      local_process fresh_state
    = (inr 1%nat,
       with_connect_calls
         (λ l, (l ++ [<["network_timeout" := VInt 30]>
                        (<["login_timeout" := VInt 30]> local_secrets)])%list)
         fresh_state).
Proof.
  pose proof (C2_credential_paths sample_interpreter
                {| DEPLOYMENT_ENV := "STAGING"; CONNECTION_TIMEOUT := 30 |}
                local_process fresh_state)
    as (_ & _ & Hlocal & _ & _ & Hset).
  split; [reflexivity|]. split.
  - destruct (Hset 30%N eq_refl) as (g0 & Hg0 & Ht & Hm).
    { left. by vm_compute. }
    rewrite Hg0. f_equal. destruct g0 as [mode t]. simpl in *. by subst.
  - destruct Hlocal as [Hcall _]; [discriminate|discriminate|].
    exact (Hcall _ local_secrets eq_refl eq_refl eq_refl eq_refl).
Defined.

(** ** The Data Loader *)

Lemma get_db_connection_frame g p s r s' :
  get_db_connection g p s = (r, s') →
  statements s' = statements s ∧ clock s' = clock s
  ∧ data_cache s' = data_cache s ∧ page s' = page s
  ∧ ∀ conn, r = inr conn → resource_cache s' = Some conn.
Proof.
  unfold get_db_connection, st.cache_resource.
  destruct (resource_cache s) as [c|] eqn:Hc.
  { intros [= <- <-]. split_and!; try done. by intros conn [= <-]. }
  destruct (get_db_connection_body g p s) as [[e|c] s0] eqn:Hbody;
    destruct (get_db_connection_body_calls _ _ _ _ _ Hbody) as (calls & -> & _);
    intros [= <- <-]; split_and!; try done.
  by intros conn [= <-].
Qed.

Lemma get_db_connection_cached g p s conn :
  resource_cache s = Some conn → get_db_connection g p s = (inr conn, s).
Proof. intros Hc. unfold get_db_connection, st.cache_resource. by rewrite Hc. Qed.

Lemma load_body_with_connection g p s conn s0 :
  get_db_connection g p s = (inr conn, s0) →
  sf_cursor (snowflake p) conn = None →
  load_penguins_data_body g p s
  = (match sf_execute (snowflake p) conn (penguins_query p) with
     | inr cur =>
         match fetch_failure cur with
         | Some e => inl e
         | None => inr (result_set cur)
         end
     | inl e => inl e
     end,
     with_statements (λ l, (l ++ [penguins_query p])%list) s0).
Proof.
  intros Hconn Hcur. unfold load_penguins_data_body, mbind, M_bind.
  rewrite Hconn. unfold connector.cursor. rewrite Hcur. simpl.
  destruct (sf_execute (snowflake p) conn (penguins_query p)) as [e|cur]; [done|].
  unfold connector.fetch_pandas_all. by destruct (fetch_failure cur).
Qed.

Lemma load_body_without_statement g p s r s0 :
  get_db_connection g p s = (r, s0) →
  match r with
  | inl _ => True
  | inr conn => is_Some (sf_cursor (snowflake p) conn)
  end →
  ∃ e, load_penguins_data_body g p s = (inl e, s0).
Proof.
  intros Hconn Hr. unfold load_penguins_data_body, mbind, M_bind.
  rewrite Hconn. destruct r as [e|conn]; [by exists e|].
  destruct Hr as [e He]. unfold connector.cursor. rewrite He. by exists e.
Qed.

(** C7: the loader sends the warehouse one statement and no other,
    [SELECT * FROM <database>.PUBLIC.PENGUINS] with [<database>] the value
    of DEMO_DATABASE, or DEMO_DB when that is unset, and returns every row
    of its result set. *)
Theorem C7_single_fixed_query (g : Globals) (p : Process) (s : State) :
  let database := default "DEMO_DB" (environ p !! "DEMO_DATABASE") in
  let query := "SELECT * FROM " +:+ database +:+ ".PUBLIC.PENGUINS" in
  ∃ r s',
    load_penguins_data_body g p s = (r, s')
    ∧ (statements s' = statements s
       ∨ statements s' = (statements s ++ [query])%list)
    ∧ ∀ conn s0,
        get_db_connection g p s = (inr conn, s0) →
        sf_cursor (snowflake p) conn = None →
        statements s' = (statements s ++ [query])%list
        ∧ ∀ cur,
            sf_execute (snowflake p) conn query = inr cur →
            fetch_failure cur = None →
            r = inr (result_set cur).
Proof.
  intros database query.
  destruct (get_db_connection g p s) as [r0 s0] eqn:Hconn.
  destruct (get_db_connection_frame _ _ _ _ _ Hconn) as (Hst & _).
  assert (∀ conn, r0 = inr conn → sf_cursor (snowflake p) conn = None →
    load_penguins_data_body g p s
    = (match sf_execute (snowflake p) conn query with
       | inr cur =>
           match fetch_failure cur with
           | Some e => inl e
           | None => inr (result_set cur)
           end
       | inl e => inl e
       end,
       with_statements (λ l, (l ++ [query])%list) s0)) as Hrun.
  { intros conn -> Hcur. by apply load_body_with_connection. }
  destruct r0 as [e|conn]; [|destruct (sf_cursor (snowflake p) conn) as [e|] eqn:Hcur].
  - destruct (load_body_without_statement g p s (inl e) s0 Hconn I) as [e' ->].
    eexists _, _. split; [done|]. split; [by left|]. intros ? ? [=].
  - destruct (load_body_without_statement g p s (inr conn) s0 Hconn) as [e' ->].
    { rewrite Hcur. by eexists. }
    eexists _, _. split; [done|]. split; [by left|].
    intros ? ? [= <- <-]. by rewrite Hcur.
  - rewrite (Hrun conn eq_refl Hcur).
    eexists _, _. split; [done|]. simpl. rewrite Hst. split; [by right|].
    intros ? ? [= <- <-] _. split; [done|].
    intros cur -> ->. done.
Qed.

Lemma C7_single_fixed_query_witness :
  get_db_connection (globals_of "DOCKER") (bare_process (serving sample_table))
    fresh_state
  = (inr 1%nat,
     with_resource_cache (Some 1%nat)
       (with_connect_calls
          (λ _, [list_to_map
                   [("account", VNone); ("user", VNone); ("password", VNone);
                    ("warehouse", VStr "COMPUTE_WH"); ("role", VNone);
                    ("database", VNone);
                    ("login_timeout", VInt 15); ("network_timeout", VInt 15)]])
          fresh_state))
  ∧ ∃ s',
      load_penguins_data_body (globals_of "DOCKER")
        (bare_process (serving sample_table)) fresh_state
      = (inr sample_table, s')
      ∧ statements s' = ["SELECT * FROM DEMO_DB.PUBLIC.PENGUINS"].
Proof.
  split; [reflexivity|].
  destruct (C7_single_fixed_query (globals_of "DOCKER")
              (bare_process (serving sample_table)) fresh_state)
    as (r & s' & Hrun & _ & Hconn).
  destruct (Hconn 1%nat _ eq_refl eq_refl) as [Hst Hrows].
  exists s'. split; [|exact Hst].
  rewrite Hrun. f_equal. exact (Hrows _ eq_refl eq_refl).
Defined.

(** C9: after a load that ran the query and returned, a load less than 300
    seconds later returns the cached table and sends the warehouse nothing;
    a load 300 seconds later or more runs the query again and restarts the
    window. *)
Theorem C9_ttl_cache (g : Globals) (p : Process) (s s1 : State)
    (df : DataFrame) (t : Q) :
  data_cache_stale s →
  load_penguins_data g p s = (inr df, s1) →
  statements s1 = (statements s ++ [penguins_query p])%list
  ∧ ((t - clock s < 300)%Q →
     load_penguins_data g p (with_clock t s1) = (inr df, with_clock t s1))
  ∧ ((300 <= t - clock s)%Q →
     ∃ s2,
       load_penguins_data g p (with_clock t s1) = (inr df, s2)
       ∧ statements s2 = (statements s1 ++ [penguins_query p])%list
       ∧ data_cache s2 = Some (t, df)).
Proof.
  intros Hstale Hload.
  assert (st.cache_data 300 (load_penguins_data_body g p) s
          = match load_penguins_data_body g p s with
            | (inr d, s') => (inr d, with_data_cache (Some (clock s', d)) s')
            | (inl e, s') => (inl e, s')
            end) as Hmiss.
  { unfold st.cache_data, data_cache_stale in *.
    destruct (data_cache s) as [[created d]|]; [by rewrite Hstale|done]. }
  unfold load_penguins_data in Hload. rewrite Hmiss in Hload. clear Hmiss.
  destruct (get_db_connection g p s) as [r0 s0] eqn:Hconn.
  destruct (get_db_connection_frame _ _ _ _ _ Hconn) as (Hst & Hclk & _ & _ & Hrc).
  destruct r0 as [e|conn].
  { destruct (load_body_without_statement g p s (inl e) s0 Hconn I) as [e' He'].
    by rewrite He' in Hload. }
  destruct (sf_cursor (snowflake p) conn) as [e|] eqn:Hcur.
  { destruct (load_body_without_statement g p s (inr conn) s0 Hconn) as [e' He'].
    { rewrite Hcur. by eexists. }
    by rewrite He' in Hload. }
  rewrite (load_body_with_connection _ _ _ _ _ Hconn Hcur) in Hload.
  destruct (sf_execute (snowflake p) conn (penguins_query p)) as [e|cur] eqn:Hexec;
    [done|].
  destruct (fetch_failure cur) as [e|] eqn:Hfetch; [done|].
  injection Hload as <- <-. simpl. rewrite Hst, Hclk.
  split; [done|].
  unfold load_penguins_data, st.cache_data, st.fresh. simpl.
  split; intros Ht.
  - destruct (Qlt_le_dec (t - clock s) 300) as [_|Hge]; [done|].
    destruct (Qlt_not_le _ _ Ht Hge).
  - destruct (Qlt_le_dec (t - clock s) 300) as [Hlt|_].
    { destruct (Qlt_not_le _ _ Hlt Ht). }
    erewrite load_body_with_connection;
      [|apply get_db_connection_cached; simpl; by apply Hrc|done].
    rewrite Hexec, Hfetch. eexists. split; [done|]. simpl. by rewrite Hst.
Qed.

Lemma C9_ttl_cache_witness :
  data_cache_stale fresh_state
  ∧ ∃ s1,
      load_penguins_data (globals_of "DOCKER")
        (bare_process (serving sample_table)) fresh_state
      = (inr sample_table, s1)
      ∧ (299 - clock fresh_state < 300)%Q
      ∧ load_penguins_data (globals_of "DOCKER")
          (bare_process (serving sample_table)) (with_clock 299 s1)
        = (inr sample_table, with_clock 299 s1)
      ∧ (300 <= 300 - clock fresh_state)%Q
      ∧ ∃ s2,
          load_penguins_data (globals_of "DOCKER")
            (bare_process (serving sample_table)) (with_clock 300 s1)
          = (inr sample_table, s2)
          ∧ statements s2
            = ["SELECT * FROM DEMO_DB.PUBLIC.PENGUINS";
               "SELECT * FROM DEMO_DB.PUBLIC.PENGUINS"].
Proof.
  split; [exact I|].
  eexists. split; [reflexivity|].
  assert (299 - clock fresh_state < 300)%Q as Hlt by reflexivity.
  assert (300 <= 300 - clock fresh_state)%Q as Hge by (intros Hgt; discriminate Hgt).
  split; [exact Hlt|]. split.
  { exact (proj1 (proj2 (C9_ttl_cache (globals_of "DOCKER")
             (bare_process (serving sample_table)) fresh_state _ sample_table 299
             I eq_refl)) Hlt). }
  split; [exact Hge|].
  destruct (proj2 (proj2 (C9_ttl_cache (globals_of "DOCKER")
             (bare_process (serving sample_table)) fresh_state _ sample_table 300
             I eq_refl)) Hge) as (s2 & Hrun & Hst & _).
  exists s2. split; [exact Hrun|exact Hst].
Defined.

(** ** More on the Filter Engine *)

Lemma row_selected_intersection sp sp' isl isl' sx sx' r :
  row_selected (list_intersection sp sp') (list_intersection isl isl')
    (list_intersection sx sx') r
  ↔ row_selected sp' isl' sx' r ∧ row_selected sp isl sx r.
Proof.
  unfold row_selected. rewrite !list_elem_of_intersection.
  destruct (SEX r) as [x|]; simpl; [rewrite list_elem_of_intersection|]; tauto.
Qed.

(** X1: filtering a view again with other selections is filtering the table
    once with the three intersections; so two filterings give the same view
    in either order. *)
Theorem filter_twice_is_intersection (df : DataFrame)
    (sp isl sx sp' isl' sx' : list string) :
  apply_filters (apply_filters df sp isl sx) sp' isl' sx'
  = apply_filters df (list_intersection sp sp') (list_intersection isl isl')
      (list_intersection sx sx')
  ∧ apply_filters (apply_filters df sp isl sx) sp' isl' sx'
    = apply_filters (apply_filters df sp' isl' sx') sp isl sx.
Proof.
  rewrite !apply_filters_filter, !list_filter_filter. split.
  - apply list_filter_iff. intros r. by rewrite row_selected_intersection.
  - apply list_filter_iff. intros r. tauto.
Qed.

(** X2: the view depends on the members of the three selections only, not
    on their order or on repetitions. *)
Theorem filter_reads_members_only (df : DataFrame)
    (sp isl sx sp' isl' sx' : list string) :
  (∀ x, x ∈ sp ↔ x ∈ sp') → (∀ x, x ∈ isl ↔ x ∈ isl') →
  (∀ x, x ∈ sx ↔ x ∈ sx') →
  apply_filters df sp isl sx = apply_filters df sp' isl' sx'.
Proof.
  intros Hsp Hisl Hsx. rewrite !apply_filters_filter.
  apply list_filter_iff. intros r. unfold row_selected.
  rewrite Hsp, Hisl. destruct (SEX r) as [x|]; simpl; [rewrite Hsx|]; tauto.
Qed.

Lemma filter_reads_members_only_witness :
  (∀ x, x ∈ ["Gentoo"; "Adelie"; "Gentoo"] ↔ x ∈ ["Adelie"; "Gentoo"])
  ∧ apply_filters sample_table ["Gentoo"; "Adelie"; "Gentoo"] ["Biscoe"] ["FEMALE"]
    = apply_filters sample_table ["Adelie"; "Gentoo"] ["Biscoe"] ["FEMALE"].
Proof.
  assert (∀ x, x ∈ ["Gentoo"; "Adelie"; "Gentoo"] ↔ x ∈ ["Adelie"; "Gentoo"]) as Hm.
  { intros x. rewrite !elem_of_cons, !elem_of_nil. tauto. }
  split; [exact Hm|].
  apply filter_reads_members_only; [exact Hm|tauto|tauto].
Defined.

(** X3: when each selection shrinks, the new view is a sub-list of the old
    one: rows only disappear, none appears and none moves. *)
Theorem filter_shrinks_to_sublist (df : DataFrame)
    (sp isl sx sp' isl' sx' : list string) :
  sp ⊆ sp' → isl ⊆ isl' → sx ⊆ sx' →
  apply_filters df sp isl sx `sublist_of` apply_filters df sp' isl' sx'.
Proof.
  intros Hsp Hisl Hsx. rewrite !apply_filters_filter.
  rewrite <- (list_filter_filter_l (row_selected sp isl sx)
                (row_selected sp' isl' sx') df).
  - apply sublist_filter.
  - intros r (Hs & Hi & Hx). split_and!; auto.
    destruct (SEX r); simpl in *; auto.
Qed.

Lemma filter_shrinks_to_sublist_witness :
  ["Gentoo"] ⊆ ["Adelie"; "Gentoo"]
  ∧ apply_filters sample_table ["Gentoo"] ["Biscoe"; "Torgersen"] ["FEMALE"; "MALE"]
    `sublist_of`
    apply_filters sample_table ["Adelie"; "Gentoo"] ["Biscoe"; "Torgersen"]
      ["FEMALE"; "MALE"].
Proof.
  assert (["Gentoo"] ⊆ ["Adelie"; "Gentoo"]) as Hsub.
  { intros x Hx. apply list_elem_of_singleton in Hx as ->. right. left. }
  split; [exact Hsub|].
  apply filter_shrinks_to_sublist; [exact Hsub|done|done].
Defined.

(** X4: the views of two species selections without a common member split
    the view of the two selections taken together: the row counts add up. *)
Theorem disjoint_species_views_add_up (df : DataFrame)
    (sp sp' isl sx : list string) :
  (∀ x, x ∈ sp → x ∉ sp') →
  length (apply_filters df (sp ++ sp') isl sx)
  = (length (apply_filters df sp isl sx) + length (apply_filters df sp' isl sx))%nat.
Proof.
  intros Hdisj. rewrite !apply_filters_filter.
  induction df as [|r df IH]; [done|].
  rewrite !filter_cons.
  destruct (decide (row_selected sp isl sx r)) as [H1|H1];
    destruct (decide (row_selected sp' isl sx r)) as [H2|H2];
    destruct (decide (row_selected (sp ++ sp') isl sx r)) as [H3|H3];
    simpl; rewrite ?IH; try lia; exfalso; unfold row_selected in *;
    rewrite ?elem_of_app in *.
  - destruct H1 as [H1 _], H2 as [H2 _]. by apply (Hdisj _ H1).
  - destruct H1 as [H1 _], H2 as [H2 _]. by apply (Hdisj _ H1).
  - tauto.
  - tauto.
  - tauto.
Qed.

Lemma disjoint_species_views_add_up_witness :
  (∀ x, x ∈ ["Adelie"] → x ∉ ["Gentoo"])
  ∧ length (apply_filters sample_table ["Adelie"; "Gentoo"]
              ["Biscoe"; "Torgersen"] ["FEMALE"; "MALE"])
    = (length (apply_filters sample_table ["Adelie"] ["Biscoe"; "Torgersen"]
                 ["FEMALE"; "MALE"])
       + length (apply_filters sample_table ["Gentoo"] ["Biscoe"; "Torgersen"]
                   ["FEMALE"; "MALE"]))%nat.
Proof.
  assert (∀ x, x ∈ ["Adelie"] → x ∉ ["Gentoo"]) as Hd.
  { intros x Hx%list_elem_of_singleton Hy%list_elem_of_singleton. by subst. }
  split; [exact Hd|].
  exact (disjoint_species_views_add_up sample_table ["Adelie"] ["Gentoo"] _ _ Hd).
Defined.

(** X5: with the Island and Sex multiselects untouched, the view is exactly
    the rows whose species is selected and whose SEX is present. *)
Theorem species_selection_alone
    (widgets : gmap string (list string)) (df : DataFrame) (s : State)
    (species : list string) :
  widgets !! "Species" = Some species →
  widgets !! "Island" = None → widgets !! "Sex" = None →
  (render_sidebar widgets df s).1
  = inr (filter (λ r, SPECIES r ∈ species ∧ is_Some (SEX r)) df).
Proof.
  intros Hsp Hisl Hsx. rewrite render_sidebar_run. simpl.
  unfold selection. rewrite Hsp, Hisl, Hsx. simpl.
  rewrite apply_filters_filter. f_equal.
  apply filter_ext_in. intros r Hr. unfold row_selected, island_options, sex_options.
  rewrite elem_of_sorted, elem_of_unique. split.
  - intros (Hs & _ & Hx). split; [done|]. destruct (SEX r); [by eexists|done].
  - intros [Hs [x Hx]]. split_and!; [done|by apply list_elem_of_fmap_2|].
    rewrite Hx. simpl. rewrite elem_of_sorted, elem_of_unique, elem_of_dropna.
    rewrite <- Hx. by apply list_elem_of_fmap_2.
Qed.

Lemma species_selection_alone_witness :
  ({[ "Species" := ["Adelie"] ]} : gmap string (list string)) !! "Species"
  = Some ["Adelie"]
  ∧ (render_sidebar {[ "Species" := ["Adelie"] ]} sample_table fresh_state).1
    = inr [adelie_male].
Proof.
  split; [reflexivity|].
  exact (species_selection_alone {[ "Species" := ["Adelie"] ]} sample_table
           fresh_state ["Adelie"] eq_refl eq_refl eq_refl).
Defined.

(** X6: the options of the three multiselects come from the unfiltered
    table: whatever is selected, the same three widgets are drawn, so a
    deselected value stays on offer and one filter never narrows the
    options of another. *)
Theorem options_do_not_cascade
    (widgets widgets' : gmap string (list string)) (df : DataFrame) (s : State) :
  ∃ es es',
    page (render_sidebar widgets df s).2 = (page s ++ es)%list
    ∧ page (render_sidebar widgets' df s).2 = (page s ++ es')%list
    ∧ filter is_multiselect es = filter is_multiselect es'
    ∧ filter is_multiselect es
      = [SidebarMultiselect "Species" (species_options df) (species_options df);
         SidebarMultiselect "Island" (island_options df) (island_options df);
         SidebarMultiselect "Sex" (sex_options df) (sex_options df)].
Proof.
  eexists _, _. rewrite !render_sidebar_run. simpl.
  split_and!; reflexivity.
Qed.

(** ** The Metrics and Chart Renderers *)

Lemma length_unique_from {A} `{EqDecision A} (seen l : list A) :
  (length (pd.unique_from seen l) ≤ length l)%nat.
Proof.
  revert seen. induction l as [|x l IH]; intros seen; simpl; [done|].
  destruct (decide (x ∈ seen)); simpl.
  - specialize (IH seen). lia.
  - specialize (IH (x :: seen)). lia.
Qed.

Lemma nunique_bounds {A} `{EqDecision A} (s : list A) :
  (pd.nunique s ≤ length s)%nat ∧ (s ≠ [] → (1 ≤ pd.nunique s)%nat).
Proof.
  split; [apply length_unique_from|].
  destruct s as [|x s]; [done|]. intros _.
  unfold pd.nunique, pd.unique. simpl.
  lia.
Qed.

(** X7: the Species and Islands metrics never exceed the row count of the
    view, and are at least 1 as soon as the view has a row. *)
Theorem distinct_metrics_bounded (df : DataFrame) :
  (pd.nunique (SPECIES <$> df) ≤ length df)%nat
  ∧ (pd.nunique (ISLAND <$> df) ≤ length df)%nat
  ∧ (df ≠ [] →
     (1 ≤ pd.nunique (SPECIES <$> df))%nat ∧ (1 ≤ pd.nunique (ISLAND <$> df))%nat).
Proof.
  pose proof (nunique_bounds (SPECIES <$> df)) as [Hs1 Hs2].
  pose proof (nunique_bounds (ISLAND <$> df)) as [Hi1 Hi2].
  rewrite length_fmap in Hs1, Hi1. split_and!; [done|done|].
  intros Hne. split; [apply Hs2|apply Hi2]; by destruct df.
Qed.




Lemma occurrences_cons x y s :
  occurrences x (y :: s)
  = ((if decide (y = x) then 1 else 0) + occurrences x s)%nat.
Proof.
  unfold occurrences. rewrite filter_cons. by destruct (decide (y = x)).
Qed.

Lemma occurrences_fmap {A} (f : A → string) (x : string) (l : list A) :
  occurrences x (f <$> l) = length (filter (λ r, f r = x) l).
Proof.
  unfold occurrences. induction l as [|r l IH]; [done|].
  csimpl. rewrite !filter_cons.
  destruct (decide (f r = x)); simpl; by rewrite IH.
Qed.

Lemma value_counts_cons x s :
  pd.value_counts (x :: s)
  = <[x := S (default 0%nat (pd.value_counts s !! x))]> (pd.value_counts s).
Proof. done. Qed.

Lemma value_counts_default x s :
  default 0%nat (pd.value_counts s !! x) = occurrences x s.
Proof.
  induction s as [|y s IH]; [done|].
  rewrite value_counts_cons, occurrences_cons.
  destruct (decide (y = x)) as [->|Hne].
  - rewrite lookup_insert_eq. simpl. by rewrite IH.
  - rewrite lookup_insert_ne by done. by rewrite IH.
Qed.

Lemma value_counts_is_Some x s :
  is_Some (pd.value_counts s !! x) ↔ x ∈ s.
Proof.
  induction s as [|y s IH].
  - unfold pd.value_counts. simpl. rewrite lookup_empty, elem_of_nil.
    split; [by intros [? ?]|done].
  - rewrite value_counts_cons, elem_of_cons.
    destruct (decide (y = x)) as [->|Hne].
    + rewrite lookup_insert_eq. split; [by left|by eexists].
    + rewrite lookup_insert_ne, IH by done. split; [by right|].
      intros [->|Hx]; [done|exact Hx].
Qed.

Lemma value_counts_lookup x s :
  pd.value_counts s !! x
  = if decide (x ∈ s) then Some (occurrences x s) else None.
Proof.
  pose proof (value_counts_default x s) as Hd.
  pose proof (value_counts_is_Some x s) as Hs.
  destruct (decide (x ∈ s)) as [Hx|Hx].
  - apply Hs in Hx as [n Hn]. rewrite Hn in Hd |- *. simpl in Hd. by subst.
  - destruct (pd.value_counts s !! x) as [n|] eqn:Hn; [|done].
    destruct Hx. apply Hs. by eexists.
Qed.

(** X10: in the two bar charts, the bar of a value is as high as the number
    of rows of the view with that value, and a value that no row of the
    view has gets no bar. *)
Theorem bar_heights_count_rows (df : DataFrame) (x : string) :
  pd.value_counts (SPECIES <$> df) !! x
  = (if decide (x ∈ SPECIES <$> df)
     then Some (length (filter (λ r, SPECIES r = x) df)) else None)
  ∧ pd.value_counts (ISLAND <$> df) !! x
    = (if decide (x ∈ ISLAND <$> df)
       then Some (length (filter (λ r, ISLAND r = x) df)) else None).
Proof.
  rewrite !value_counts_lookup, !occurrences_fmap. done.
Qed.

Lemma dom_value_counts s :
  dom (pd.value_counts s) = (list_to_set s : gset string).
Proof.
  induction s as [|x s IH].
  - unfold pd.value_counts. simpl. apply dom_empty_L.
  - rewrite value_counts_cons, dom_insert_L, IH. done.
Qed.

Lemma size_value_counts s : size (pd.value_counts s) = pd.nunique s.
Proof.
  rewrite <- size_dom, dom_value_counts. unfold pd.nunique.
  rewrite <- (size_list_to_set (C := gset string) (pd.unique s))
    by apply NoDup_unique.
  f_equal. apply set_eq. intros x.
  by rewrite !elem_of_list_to_set, elem_of_unique.
Qed.

Lemma total_count_insert_fresh (m : gmap string nat) x n :
  m !! x = None → total_count (<[x := n]> m) = (n + total_count m)%nat.
Proof.
  intros Hx. unfold total_count.
  rewrite map_fold_insert_L; [done| |done].
  intros. lia.
Qed.

Lemma total_count_value_counts s : total_count (pd.value_counts s) = length s.
Proof.
  induction s as [|x s IH]; [done|].
  rewrite value_counts_cons. simpl.
  destruct (pd.value_counts s !! x) as [n|] eqn:Hx; simpl.
  - rewrite <- insert_delete_eq.
    rewrite total_count_insert_fresh by apply lookup_delete_eq.
    rewrite <- IH. rewrite <- (insert_delete_id (pd.value_counts s) x n Hx) at 2.
    rewrite total_count_insert_fresh by apply lookup_delete_eq. lia.
  - rewrite total_count_insert_fresh by done. lia.
Qed.

(** X11: each bar chart agrees with the metrics above it: the species chart
    has as many bars as the Species metric says, the island chart as many
    as the Islands metric, and the heights of the bars of either chart add
    up to the row count of the view. *)
Theorem charts_agree_with_metrics (df : DataFrame) :
  size (pd.value_counts (SPECIES <$> df)) = pd.nunique (SPECIES <$> df)
  ∧ size (pd.value_counts (ISLAND <$> df)) = pd.nunique (ISLAND <$> df)
  ∧ total_count (pd.value_counts (SPECIES <$> df)) = length df
  ∧ total_count (pd.value_counts (ISLAND <$> df)) = length df.
Proof.
  rewrite !size_value_counts, !total_count_value_counts, !length_fmap. done.
Qed.

Lemma scatter_rows_cons r df :
  scatter_rows (r :: df)
  = match FLIPPER_LENGTH_MM r, BODY_MASS_G r with
    | Some f, Some m => (f, m, SPECIES r) :: scatter_rows df
    | _, _ => scatter_rows df
    end.
Proof.
  unfold scatter_rows. csimpl.
  by destruct (FLIPPER_LENGTH_MM r), (BODY_MASS_G r).
Qed.

(** X12: the scatter chart has one point for each row of the view that has
    both a flipper length and a body mass, in the order of the view, with
    the values and the species of that row; the other rows are left out. *)
Theorem scatter_plots_measured_rows (df : DataFrame) :
  Forall2 (λ pt r, FLIPPER_LENGTH_MM r = Some pt.1.1
                   ∧ BODY_MASS_G r = Some pt.1.2 ∧ SPECIES r = pt.2)
    (scatter_rows df) (filter both_measured df).
Proof.
  induction df as [|r df IH]; [constructor|].
  rewrite scatter_rows_cons, filter_cons.
  destruct (decide (both_measured r)) as [[[f Hf] [m Hm]]|Hno].
  - rewrite Hf, Hm. by constructor.
  - destruct (FLIPPER_LENGTH_MM r) as [f|] eqn:Hf; [|done].
    destruct (BODY_MASS_G r) as [m|] eqn:Hm; [|done].
    destruct Hno. split; [rewrite Hf|rewrite Hm]; by eexists.
Qed.

(** ** More on the Orchestrator *)

Lemma render_charts_run df s :
  render_charts df s = (inr (), shows (charts_elements df) s).
Proof. unfold render_charts. run_M. done. Qed.

Lemma render_data_table_run df s :
  render_data_table df s = (inr (), shows (table_elements df) s).
Proof. unfold render_data_table. run_M. done. Qed.

Lemma main_try_success g load widgets s0 df s1 :
  load (shows [Spinner "Loading penguin data..."] s0) = (inr df, s1) →
  main_try g load (render_sidebar widgets) render_metrics render_charts
    render_data_table s0
  = (inr (),
     shows
       (dashboard_elements g df
          (apply_filters df (selection widgets "Species" (species_options df))
             (selection widgets "Island" (island_options df))
             (selection widgets "Sex" (sex_options df)))) s1).
Proof.
  intros Hload. unfold main_try, st.spinner, mbind, M_bind.
  rewrite show_run, Hload, render_sidebar_run.
  cbn beta iota zeta.
  rewrite render_metrics_run. unfold st.markdown, st.caption.
  rewrite show_run, render_charts_run, show_run, render_data_table_run,
    !show_run, !shows_shows.
  reflexivity.
Qed.

Lemma page_shows es s : page (shows es s) = (page s ++ es)%list.
Proof. done. Qed.

(** What a load may do to the state: it draws nothing, opens at most one
    connection, sends at most the one statement. *)
Lemma load_effects g p s r s' :
  load_penguins_data g p s = (r, s') →
  page s' = page s
  ∧ (∃ calls, connect_calls s' = (connect_calls s ++ calls)%list
              ∧ (length calls ≤ 1)%nat)
  ∧ (statements s' = statements s
     ∨ statements s' = (statements s ++ [penguins_query p])%list)
  ∧ (∀ conn, resource_cache s = Some conn →
       resource_cache s' = Some conn ∧ connect_calls s' = connect_calls s).
Proof.
  assert (∀ r0 s0, load_penguins_data_body g p s = (r0, s0) →
    page s0 = page s
    ∧ (∃ calls, connect_calls s0 = (connect_calls s ++ calls)%list
                ∧ (length calls ≤ 1)%nat)
    ∧ (statements s0 = statements s
       ∨ statements s0 = (statements s ++ [penguins_query p])%list)
    ∧ (∀ conn, resource_cache s = Some conn →
         resource_cache s0 = Some conn ∧ connect_calls s0 = connect_calls s))
    as Hbody.
  { intros r0 s0 Hrun.
    destruct (get_db_connection g p s) as [rc sc] eqn:Hconn.
    destruct (get_db_connection_frame _ _ _ _ _ Hconn) as (Hst & _ & _ & Hpg & _).
    assert ((∃ calls, connect_calls sc = (connect_calls s ++ calls)%list
                      ∧ (length calls ≤ 1)%nat)
            ∧ (∀ conn, resource_cache s = Some conn →
                 resource_cache sc = Some conn
                 ∧ connect_calls sc = connect_calls s)) as [Hcalls Hkeep].
    { revert Hconn. unfold get_db_connection, st.cache_resource.
      destruct (resource_cache s) as [c|] eqn:Hc.
      - intros [= <- <-]. split; [|by intros conn [= <-]].
        exists []. split; [by rewrite app_nil_r|simpl; lia].
      - destruct (get_db_connection_body g p s) as [[e|c] s0'] eqn:Hb;
          destruct (get_db_connection_body_calls _ _ _ _ _ Hb)
            as (calls & -> & Hlen & _);
          intros [= <- <-]; (split; [by exists calls|done]). }
    assert (s0 = sc ∨ s0 = with_statements (λ l, (l ++ [penguins_query p])%list) sc)
      as [-> | ->].
    { destruct rc as [e|conn].
      - destruct (load_body_without_statement g p s (inl e) sc Hconn I) as [e' He'].
        rewrite He' in Hrun. left. congruence.
      - destruct (sf_cursor (snowflake p) conn) as [e|] eqn:Hcur.
        + destruct (load_body_without_statement g p s (inr conn) sc Hconn)
            as [e' He']; [rewrite Hcur; by eexists|].
          rewrite He' in Hrun. left. congruence.
        + rewrite (load_body_with_connection _ _ _ _ _ Hconn Hcur) in Hrun.
          right. congruence. }
    - split_and!; [done|done|by left|done].
    - simpl. rewrite Hst. split_and!; [done|done|by right|done]. }
  unfold load_penguins_data, st.cache_data.
  assert (match load_penguins_data_body g p s with
          | (inr df, s0) => (inr df, with_data_cache (Some (clock s0, df)) s0)
          | (inl e, s0) => (inl e, s0)
          end = (r, s') →
          page s' = page s
          ∧ (∃ calls, connect_calls s' = (connect_calls s ++ calls)%list
                      ∧ (length calls ≤ 1)%nat)
          ∧ (statements s' = statements s
             ∨ statements s' = (statements s ++ [penguins_query p])%list)
          ∧ (∀ conn, resource_cache s = Some conn →
               resource_cache s' = Some conn
               ∧ connect_calls s' = connect_calls s)) as Hrun.
  { destruct (load_penguins_data_body g p s) as [[e|df] s0] eqn:Hb;
      specialize (Hbody _ _ eq_refl); intros [= <- <-]; exact Hbody. }
  destruct (data_cache s) as [[created df]|]; [|exact Hrun].
  destruct (st.fresh 300 created (clock s)); [|exact Hrun].
  intros [= <- <-]. split_and!; [done| |by left|done].
  exists []. split; [by rewrite app_nil_r|simpl; lia].
Qed.

Lemma banner_free_dashboard g df filtered :
  Forall (λ e, is_banner e = false) (dashboard_elements g df filtered).
Proof.
  unfold dashboard_elements, sidebar_elements, metrics_elements,
    charts_elements, table_elements.
  rewrite !Forall_app. repeat split; repeat constructor.
Qed.

(** X13: when the load returns a table, [main] ends normally having drawn,
    after header and spinner, the sidebar, the four metrics, the charts and
    the grid, all three computed from the one view that the sidebar
    returned, and the footer naming the deployment mode; it draws no error,
    warning or info banner. *)
Theorem main_draws_dashboard_on_success (g : Globals) (p : Process)
    (widgets : gmap string (list string)) (s s1 : State) (df : DataFrame) :
  load_penguins_data g p
    (shows [Spinner "Loading penguin data..."] (render_header g s).2)
  = (inr df, s1) →
  ∃ filtered,
    (render_sidebar widgets df s1).1 = inr filtered
    ∧ main g p widgets s = (inr (), shows (dashboard_elements g df filtered) s1)
    ∧ Dataframe filtered ∈ dashboard_elements g df filtered
    ∧ Forall (λ e, is_banner e = false) (dashboard_elements g df filtered).
Proof.
  intros Hload. eexists. split; [by rewrite render_sidebar_run|].
  split_and!.
  - unfold main. rewrite main_with_run.
    by rewrite (main_try_success _ _ _ _ _ _ Hload).
  - unfold dashboard_elements, table_elements.
    rewrite !elem_of_app, !elem_of_cons. tauto.
  - apply banner_free_dashboard.
Qed.

Lemma main_draws_dashboard_on_success_witness :
  ∃ s1,
    load_penguins_data (globals_of "DOCKER") (bare_process (serving sample_table))
      (shows [Spinner "Loading penguin data..."]
         (render_header (globals_of "DOCKER") fresh_state).2)
    = (inr sample_table, s1)
    ∧ main (globals_of "DOCKER") (bare_process (serving sample_table))
        {[ "Species" := ["Gentoo"] ]} fresh_state
      = (inr (),
         shows (dashboard_elements (globals_of "DOCKER") sample_table [gentoo_female])
           s1).
Proof.
  eexists. split; [reflexivity|].
  destruct (main_draws_dashboard_on_success (globals_of "DOCKER")
              (bare_process (serving sample_table)) {[ "Species" := ["Gentoo"] ]}
              fresh_state _ sample_table eq_refl)
    as (filtered & Hf & Hmain & _).
  injection Hf as <-. exact Hmain.
Defined.

(** X14: when the load raises an instance of [Exception], the page gets the
    header, the spinner and the banners of the handler and nothing else: no
    filter widget, metric, chart or grid is drawn; [main] ends normally. *)
Theorem main_draws_only_banners_on_load_failure (g : Globals) (p : Process)
    (widgets : gmap string (list string)) (s s1 : State) (e : exn) :
  load_penguins_data g p
    (shows [Spinner "Loading penguin data..."] (render_header g s).2)
  = (inl e, s1) →
  isinstance_Exception e = true →
  ∃ label color bg_color s',
    main g p widgets s = (inr (), s')
    ∧ page s'
      = (page s ++ [HeaderHtml label color bg_color;
                    Spinner "Loading penguin data..."]
         ++ handler_elements g e)%list.
Proof.
  intros Hload He.
  destruct (render_header_run g s) as (label & color & bg & Hh).
  exists label, color, bg. eexists. split.
  - unfold main. rewrite main_with_run.
    rewrite (main_try_propagates _ _ _ _ _ _ _ _ _
               (raises_in_load _ _ _ _ _ _ _ _ Hload)), He.
    apply main_except_run.
  - destruct (load_effects _ _ _ _ _ Hload) as (Hpg & _).
    rewrite Hh in Hpg. cbn [snd] in Hpg.
    rewrite page_shows, Hpg, !page_shows.
    by rewrite <- !(assoc_L (++)).
Qed.

Lemma main_draws_only_banners_on_load_failure_witness :
  load_penguins_data (globals_of "AWS") (bare_process (unreachable connection_refused))
    (shows [Spinner "Loading penguin data..."]
       (render_header (globals_of "AWS") fresh_state).2)
  = (inl connection_refused, state_after_failed_connect)
  ∧ isinstance_Exception connection_refused = true
  ∧ ∃ label color bg_color s',
      main (globals_of "AWS") (bare_process (unreachable connection_refused))
        ∅ fresh_state = (inr (), s')
      ∧ page s'
        = ([] ++ [HeaderHtml label color bg_color;
                  Spinner "Loading penguin data..."]
           ++ handler_elements (globals_of "AWS") connection_refused)%list.
Proof.
  split; [reflexivity|]. split; [reflexivity|].
  exact (main_draws_only_banners_on_load_failure (globals_of "AWS")
           (bare_process (unreachable connection_refused)) ∅ fresh_state
           state_after_failed_connect connection_refused eq_refl eq_refl).
Defined.

(** X15: one run of [main] sends the warehouse at most one statement, and
    only the fixed query, and opens at most one connection; with a
    connection already cached it opens none and keeps the cached one,
    whether or not the run succeeds. *)
Theorem main_touches_warehouse_at_most_once (g : Globals) (p : Process)
    (widgets : gmap string (list string)) (s : State) :
  let s' := (main g p widgets s).2 in
  (statements s' = statements s
   ∨ statements s' = (statements s ++ [penguins_query p])%list)
  ∧ (∃ calls, connect_calls s' = (connect_calls s ++ calls)%list
              ∧ (length calls ≤ 1)%nat)
  ∧ (∀ conn, resource_cache s = Some conn →
       resource_cache s' = Some conn ∧ connect_calls s' = connect_calls s).
Proof.
  destruct (render_header_run g s) as (label & color & bg & Hh).
  destruct (load_penguins_data g p
              (shows [Spinner "Loading penguin data..."] (render_header g s).2))
    as [r s1] eqn:Hload.
  destruct (load_effects _ _ _ _ _ Hload) as (_ & Hcalls & Hst & Hkeep).
  rewrite Hh in Hcalls, Hst, Hkeep. simpl in Hcalls, Hst, Hkeep.
  assert (∃ es, (main g p widgets s).2 = shows es s1 ∨ (main g p widgets s).2 = s1)
    as [es Hend].
  { unfold main. rewrite main_with_run. destruct r as [e|df].
    - rewrite (main_try_propagates _ _ _ _ _ _ _ _ _
                 (raises_in_load _ _ _ _ _ _ _ _ Hload)).
      destruct (isinstance_Exception e).
      + rewrite main_except_run. eexists. by left.
      + exists []. by right.
    - rewrite (main_try_success _ _ _ _ _ _ Hload). eexists. by left. }
  simpl. destruct Hend as [-> | ->]; done.
Qed.

(** ** More on the Connection Provider and the script *)

(** X16: in the secret-store path a missing secrets file, a secrets file
    without the [snowflake] bundle, and a bundle that itself holds
    [login_timeout] or [network_timeout] each make [get_db_connection]
    raise an instance of [Exception] before any call to [connect]: a
    StreamlitSecretNotFoundError, a KeyError, and a TypeError for the
    repeated keyword.  The state is as before, so nothing is cached and the
    next call fails the same way. *)
Theorem secret_store_misconfiguration_raises (g : Globals) (p : Process) (s : State) :
  DEPLOYMENT_ENV g ≠ "AWS" → DEPLOYMENT_ENV g ≠ "DOCKER" →
  resource_cache s = None →
  (secrets_toml (secrets p) = None →
   ∃ msg, get_db_connection g p s
          = (inl (PyException "StreamlitSecretNotFoundError" msg), s))
  ∧ (∀ toml, secrets_toml (secrets p) = Some toml → toml !! "snowflake" = None →
     ∃ msg, get_db_connection g p s = (inl (PyException "KeyError" msg), s))
  ∧ (∀ toml bundle,
     secrets_toml (secrets p) = Some toml → toml !! "snowflake" = Some bundle →
     is_Some (bundle !! "login_timeout") ∨ is_Some (bundle !! "network_timeout") →
     ∃ msg, get_db_connection g p s = (inl (PyException "TypeError" msg), s)).
Proof.
  intros Ha Hd Hc.
  unfold get_db_connection, st.cache_resource. rewrite Hc.
  rewrite secret_store_path by done. split_and!.
  - intros ->. by eexists.
  - intros toml -> ->. by eexists.
  - intros toml bundle -> -> Hbad.
    pose proof (call_kwargs_timeouts "snowflake.connector.connect" bundle
                  (VInt (CONNECTION_TIMEOUT g))) as Hkw.
    destruct (connector.call_kwargs _ bundle _) as [e|kwargs].
    + destruct Hkw as (_ & msg & ->). by eexists.
    + destruct Hkw as (Hl & Hn & _). rewrite Hl, Hn in Hbad.
      destruct Hbad as [[? ?]|[? ?]]; done.
Qed.

Lemma secret_store_misconfiguration_raises_witness :
  DEPLOYMENT_ENV (globals_of "LOCAL") ≠ "AWS"
  ∧ DEPLOYMENT_ENV (globals_of "LOCAL") ≠ "DOCKER"
  ∧ is_Some ((<["login_timeout" := VInt 60]> local_secrets) !! "login_timeout")
  ∧ ∃ msg,
      get_db_connection (globals_of "LOCAL")
        {| environ := ∅;
           secrets :=
             secrets_file
               {[ "snowflake" := <["login_timeout" := VInt 60]> local_secrets ]};
           snowflake := serving sample_table |} fresh_state
      = (inl (PyException "TypeError" msg), fresh_state).
Proof.
  split; [discriminate|]. split; [discriminate|].
  assert (is_Some ((<["login_timeout" := VInt 60]> local_secrets) !! "login_timeout"))
    as Hkey by (by eexists).
  split; [exact Hkey|].
  refine (proj2 (proj2 (secret_store_misconfiguration_raises (globals_of "LOCAL")
            {| environ := ∅;
               secrets :=
                 secrets_file
                   {[ "snowflake" := <["login_timeout" := VInt 60]> local_secrets ]};
               snowflake := serving sample_table |} fresh_state _ _ eq_refl))
            _ _ eq_refl eq_refl (or_introl Hkey)); discriminate.
Defined.

(** X17: each credential path reads its own source only.  In the AWS and
    DOCKER modes the secret store has no influence on the settings or on
    the connection attempt.  In every other mode the environment counts
    only through DEPLOYMENT_ENV and SNOWFLAKE_CONNECTION_TIMEOUT: two
    processes with the same secret store that agree on these two variables
    load the same settings and make the same attempt, whatever the other
    variables hold. *)
Theorem credential_paths_read_their_source_only (py : Interpreter)
    (g : Globals) (p p' : Process) (s : State) :
  snowflake p = snowflake p' →
  module_globals py p = inr g →
  (DEPLOYMENT_ENV g = "AWS" ∨ DEPLOYMENT_ENV g = "DOCKER" →
   environ p = environ p' →
   module_globals py p' = inr g
   ∧ get_db_connection_body g p s = get_db_connection_body g p' s)
  ∧ (DEPLOYMENT_ENV g ≠ "AWS" → DEPLOYMENT_ENV g ≠ "DOCKER" →
     secrets p = secrets p' →
     environ p' !! "DEPLOYMENT_ENV" = environ p !! "DEPLOYMENT_ENV" →
     environ p' !! "SNOWFLAKE_CONNECTION_TIMEOUT"
     = environ p !! "SNOWFLAKE_CONNECTION_TIMEOUT" →
     module_globals py p' = inr g
     ∧ get_db_connection_body g p s = get_db_connection_body g p' s).
Proof.
  intros Hsf Hg. split.
  - intros Hmode Henv. split.
    + revert Hg. unfold module_globals, os.getenv_default. by rewrite Henv.
    + unfold get_db_connection_body, connector.connect, os.getenv,
        os.getenv_default.
      rewrite Hsf, Henv.
      destruct (decide (DEPLOYMENT_ENV g = "AWS")); [done|].
      destruct (decide (DEPLOYMENT_ENV g = "DOCKER")); [done|].
      destruct Hmode; done.
  - intros Ha Hd Hsec Hmode Htimeout. split.
    + revert Hg. unfold module_globals, os.getenv_default.
      by rewrite Hmode, Htimeout.
    + rewrite !secret_store_path by done.
      unfold connector.connect. by rewrite Hsf, Hsec.
Qed.

Lemma credential_paths_read_their_source_only_witness :
  module_globals sample_interpreter
    {| environ := {[ "SNOWFLAKE_PASSWORD" := "ignored" ]};
       secrets := secrets_file {[ "snowflake" := local_secrets ]};
       snowflake := serving sample_table |}
  = inr (globals_of "LOCAL")
  ∧ DEPLOYMENT_ENV (globals_of "LOCAL") ≠ "AWS"
  ∧ DEPLOYMENT_ENV (globals_of "LOCAL") ≠ "DOCKER"
  ∧ get_db_connection_body (globals_of "LOCAL")
      {| environ := {[ "SNOWFLAKE_PASSWORD" := "ignored" ]};
         secrets := secrets_file {[ "snowflake" := local_secrets ]};
         snowflake := serving sample_table |} fresh_state
    = get_db_connection_body (globals_of "LOCAL")
        {| environ := ∅;
           secrets := secrets_file {[ "snowflake" := local_secrets ]};
           snowflake := serving sample_table |} fresh_state.
Proof.
  split; [reflexivity|]. split; [discriminate|]. split; [discriminate|].
  refine (proj2 (proj2 (credential_paths_read_their_source_only sample_interpreter
                   (globals_of "LOCAL")
                   {| environ := {[ "SNOWFLAKE_PASSWORD" := "ignored" ]};
                      secrets := secrets_file {[ "snowflake" := local_secrets ]};
                      snowflake := serving sample_table |}
                   {| environ := ∅;
                      secrets := secrets_file {[ "snowflake" := local_secrets ]};
                      snowflake := serving sample_table |}
                   fresh_state eq_refl eq_refl)
                   _ _ eq_refl eq_refl eq_refl)); discriminate.
Defined.

(** X18: a deployment mode outside AWS, DOCKER and LOCAL is no error for
    the header: it gets the grey [Unknown] badge. *)
Theorem header_falls_back_to_unknown_badge (g : Globals) (s : State) :
  DEPLOYMENT_ENV g ≠ "AWS" → DEPLOYMENT_ENV g ≠ "DOCKER" →
  DEPLOYMENT_ENV g ≠ "LOCAL" →
  render_header g s
  = (inr (), shows [HeaderHtml "🔧 Unknown" "#666" "#F5F5F5"] s).
Proof.
  intros Ha Hd Hl. unfold render_header, badge_config.
  cbn [list_to_map foldr uncurry fst snd].
  rewrite !lookup_insert_ne, lookup_empty by done. done.
Qed.

Lemma header_falls_back_to_unknown_badge_witness :
  DEPLOYMENT_ENV (globals_of "STAGING") ≠ "AWS"
  ∧ render_header (globals_of "STAGING") fresh_state
    = (inr (), shows [HeaderHtml "🔧 Unknown" "#666" "#F5F5F5"] fresh_state).
Proof.
  split; [discriminate|].
  apply header_falls_back_to_unknown_badge; discriminate.
Defined.

(** X19: a SNOWFLAKE_CONNECTION_TIMEOUT that [int] rejects stops the script
    with the ValueError of [int] while the module is loaded: [main] is
    never entered, so its handler does not apply, nothing is drawn and the
    warehouse is not contacted. *)
Theorem bad_timeout_stops_script_before_main (py : Interpreter) (p : Process)
    (widgets : gmap string (list string)) (s : State) (raw msg : string) :
  environ p !! "SNOWFLAKE_CONNECTION_TIMEOUT" = Some raw →
  py_int py raw = inl msg →
  script py p widgets s = (inl (PyException "ValueError" msg), s)
  ∧ isinstance_Exception (PyException "ValueError" msg) = true.
Proof.
  intros Hraw Hint.
  unfold script, module_globals, os.getenv_default, mbind, M_bind, lift.
  rewrite Hraw. simpl. by rewrite Hint.
Qed.

Lemma bad_timeout_stops_script_before_main_witness :
  py_int sample_interpreter "15s"
  = inl "invalid literal for int() with base 10: '15s'"
  ∧ script sample_interpreter
      {| environ := {[ "SNOWFLAKE_CONNECTION_TIMEOUT" := "15s" ]};
         secrets := no_secrets; snowflake := serving sample_table |} ∅ fresh_state
    = (inl (PyException "ValueError"
              "invalid literal for int() with base 10: '15s'"), fresh_state).
Proof.
  split; [reflexivity|].
  exact (proj1 (bad_timeout_stops_script_before_main sample_interpreter
           {| environ := {[ "SNOWFLAKE_CONNECTION_TIMEOUT" := "15s" ]};
              secrets := no_secrets; snowflake := serving sample_table |}
           ∅ fresh_state "15s" _ eq_refl eq_refl)).
Defined.




(** X21: the timeout round-trips through the environment: with
    SNOWFLAKE_CONNECTION_TIMEOUT set to the decimal numeral of a natural
    number, the module loads and CONNECTION_TIMEOUT is that number, as long
    as the numeral is within the digit limit of the interpreter: at most
    640 digits, or at most the configured limit (4300 by default), or any
    length with the limit switched off. *)
Theorem timeout_numeral_is_read_back (py : Interpreter) (p : Process) (n : N) :
  environ p !! "SNOWFLAKE_CONNECTION_TIMEOUT" = Some (pretty n) →
  (N.of_nat (String.length (pretty n)) ≤ 640 ∨ int_max_str_digits py = 0
   ∨ N.of_nat (String.length (pretty n)) ≤ int_max_str_digits py)%N →
  ∃ g, module_globals py p = inr g ∧ CONNECTION_TIMEOUT g = Z.of_N n.
Proof.
  intros Henv Hlim. unfold module_globals, os.getenv_default.
  rewrite Henv. simpl. rewrite py_int_pretty by done. by eexists.
Qed.

Lemma timeout_numeral_is_read_back_witness :
  environ local_process !! "SNOWFLAKE_CONNECTION_TIMEOUT" = Some (pretty 30%N)
  ∧ (N.of_nat (String.length (pretty 30%N)) ≤ 640)%N
  ∧ ∃ g, module_globals sample_interpreter local_process = inr g
         ∧ CONNECTION_TIMEOUT g = 30%Z.
Proof.
  assert (N.of_nat (String.length (pretty 30%N)) ≤ 640)%N as Hlen by (by vm_compute).
  split; [reflexivity|]. split; [exact Hlen|].
  exact (timeout_numeral_is_read_back sample_interpreter local_process 30 eq_refl
           (or_introl Hlen)).
Defined.
